(** * Background agents: a shallow embedding of the Python sources

    The development follows the layout of the repository:

    - [models/background_message.py]   the message carried to the agents,
    - [interfaces/background_agent.py] the abstract agent and its
      subscription set,
    - [agents/example_agent.py]        [SystemMonitorAgent],
    - [agents/notification_agent.py]   [NotificationAgent].

    Python objects are modelled as values: a payload is a tree of JSON-like
    values, the agents' private dictionaries are insertion-ordered
    association lists looked up with Python's [==], and a coroutine body is
    a function from the agent's state to an outcome (normal return or a
    raised exception), the new state and the records handed to the module
    logger. *)

From Stdlib Require Import ZArith QArith Floats.SpecFloat.
From stdpp Require Import gmap strings list pretty.

Close Scope Q_scope.
Local Open Scope string_scope.
Local Open Scope list_scope.

(** ** Python values *)

(** The [Any] of [Dict[str, Any]]: what a JSON-compatible payload holds.
    A float is an IEEE binary64 datum in the representation of
    [SpecFloat]; a dict keeps its insertion order and has string keys. *)
#[warnings="-register-all"]
Inductive value : Type :=
| VNone
| VBool (b : bool)
| VInt (z : Z)
| VFloat (f : spec_float)
| VStr (s : string)
| VList (l : list value)
| VDict (d : list (string * value)).

(** [d.get(k)] on a payload dict: the first entry under [k]. *)
Fixpoint dict_get (d : list (string * value)) (k : string) : option value :=
  match d with
  | [] => None
  | (k', v) :: r => if String.eqb k' k then Some v else dict_get r k
  end.

(** Python's [bool(v)]: [None], [False], zero, and the empty string, list
    and dict are falsy; everything else (a NaN included) is truthy. *)
Definition truthy (v : value) : bool :=
  match v with
  | VNone => false
  | VBool b => b
  | VInt z => negb (z =? 0)%Z
  | VFloat (S754_zero _) => false
  | VFloat _ => true
  | VStr s => negb (String.eqb s "")
  | VList l => match l with [] => false | _ :: _ => true end
  | VDict d => match d with [] => false | _ :: _ => true end
  end.

(** Only lists and dicts are unhashable among these values. *)
Definition hashable (v : value) : bool :=
  match v with
  | VList _ | VDict _ => false
  | _ => true
  end.

(** The name Python prints for the class of a value. *)
Definition type_name (v : value) : string :=
  match v with
  | VNone => "NoneType"
  | VBool _ => "bool"
  | VInt _ => "int"
  | VFloat _ => "float"
  | VStr _ => "str"
  | VList _ => "list"
  | VDict _ => "dict"
  end.

(** *** Numeric comparison

    [bool] is a subclass of [int], and Python compares an int with a float
    by their exact mathematical values, so [True == 1 == 1.0]. *)
Variant num : Type :=
| NFin (q : Q)
| NInf (negative : bool)
| NNaN.

Definition float_num (f : spec_float) : num :=
  match f with
  | S754_zero _ => NFin 0%Q
  | S754_infinity s => NInf s
  | S754_nan => NNaN
  | S754_finite s m e =>
      let mag : Q :=
        if (0 <=? e)%Z then inject_Z (Z.pos m * 2 ^ e)
        else Qmake (Z.pos m) (Z.to_pos (2 ^ (- e))) in
      NFin (if s then Qopp mag else mag)
  end.

Definition as_num (v : value) : option num :=
  match v with
  | VBool b => Some (NFin (if b then 1%Q else 0%Q))
  | VInt z => Some (NFin (inject_Z z))
  | VFloat f => Some (float_num f)
  | _ => None
  end.

Definition num_eqb (x y : num) : bool :=
  match x, y with
  | NFin p, NFin q => Qeq_bool p q
  | NInf s, NInf t => Bool.eqb s t
  | _, _ => false
  end.

(** Python's [a == b] on payload values.  Values that reach an agent in
    different messages are different objects, so a NaN is equal to nothing,
    itself included.  Two dicts are equal when they have as many keys and
    every key of the first is bound to an equal value in the second. *)
Fixpoint py_eq (a b : value) {struct a} : bool :=
  match a with
  | VNone => match b with VNone => true | _ => false end
  | VStr s => match b with VStr t => String.eqb s t | _ => false end
  | VList l =>
      match b with
      | VList l' =>
          (fix all2 (xs ys : list value) {struct xs} : bool :=
             match xs, ys with
             | [], [] => true
             | x :: xs', y :: ys' => py_eq x y && all2 xs' ys'
             | _, _ => false
             end) l l'
      | _ => false
      end
  | VDict d =>
      match b with
      | VDict d' =>
          (length d =? length d')%nat &&
          (fix sub (es : list (string * value)) {struct es} : bool :=
             match es with
             | [] => true
             | (k, v) :: es' =>
                 match dict_get d' k with
                 | Some w => py_eq v w
                 | None => false
                 end && sub es'
             end) d
      | _ => false
      end
  | VBool _ | VInt _ | VFloat _ =>
      match as_num a, as_num b with
      | Some x, Some y => num_eqb x y
      | _, _ => false
      end
  end.

(** ** Exceptions, log records and the hook monad *)

(** The exceptions the modelled operations can raise, with the two that
    derive from [BaseException] only: an [except Exception] clause does not
    catch those. *)
Variant exn : Type :=
| TypeError (msg : string)
| KeyError (key : value)
| AttributeError (msg : string)
| OverflowError (msg : string)
| KeyboardInterrupt
| CancelledError.

Definition is_Exception (e : exn) : bool :=
  match e with
  | TypeError _ | KeyError _ | AttributeError _ | OverflowError _ => true
  | KeyboardInterrupt | CancelledError => false
  end.

Variant level : Type := INFO | WARNING | ERROR.

(** A piece of an f-string: literal text, or a formatted object. *)
Variant frag : Type :=
| Lit (s : string)
| Fmt (v : value)
| FmtLen (n : nat)
| FmtExn (e : exn)
| FmtHours (uptime : value).

Record log_record : Type := LogRecord { levelname : level; msg : list frag }.

Variant outcome (A : Type) : Type :=
| Returned (a : A)
| Raised (e : exn).
Arguments Returned {A} a.
Arguments Raised {A} e.

(** A method body: from the state of [self] to its outcome, the state it
    leaves and the records it logged, oldest first.  What was written
    before a [raise] stays written. *)
Definition M (S A : Type) : Type := S -> outcome A * S * list log_record.

Definition ret {S A} (a : A) : M S A := fun s => (Returned a, s, []).

Definition bind {S A B} (m : M S A) (k : A -> M S B) : M S B :=
  fun s =>
    match m s with
    | (Returned a, s', l) =>
        let '(r, s'', l') := k a s' in (r, s'', l ++ l')
    | (Raised e, s', l) => (Raised e, s', l)
    end.

Definition raise {S A} (e : exn) : M S A := fun s => (Raised e, s, []).

Definition get_self {S} : M S S := fun s => (Returned s, s, []).

Definition logger {S} (lv : level) (text : list frag) : M S unit :=
  fun s => (Returned tt, s, [LogRecord lv text]).

(** Lift a pure operation that may raise. *)
Definition lift {S A} (r : exn + A) : M S A :=
  match r with
  | inl e => raise e
  | inr a => ret a
  end.

(** [try: body / except Exception as e: handler e]. *)
Definition try_except {S A} (body : M S A) (handler : exn -> M S A) : M S A :=
  fun s =>
    match body s with
    | (Raised e, s', l) =>
        if is_Exception e then
          let '(r, s'', l') := handler e s' in (r, s'', l ++ l')
        else (Raised e, s', l)
    | res => res
    end.

Declare Scope hook_scope.
Delimit Scope hook_scope with hook.
Notation "'let*' x := m 'in' k" := (bind m (fun x => k))
  (at level 10, x name, m at level 100, k at level 200) : hook_scope.
Notation "m ;; k" := (bind m (fun _ => k))
  (at level 100, k at level 200, right associativity) : hook_scope.

Definition result_of {S A} (r : outcome A * S * list log_record) : outcome A := r.1.1.
Definition state_of {S A} (r : outcome A * S * list log_record) : S := r.1.2.
Definition log_of {S A} (r : outcome A * S * list log_record) : list log_record := r.2.

(** ** Dictionaries keyed by payload values

    [self._notifications] and [self._user_sessions] are Python dicts whose
    keys come out of a payload.  A dict keeps its entries in insertion
    order; a lookup compares the stored key with the probe by [==] (so [1],
    [True] and [1.0] name one entry) and raises [TypeError] on a probe that
    cannot be hashed. *)
Section PyDict.
Context {V : Type}.

Definition pydict : Type := list (value * V).

Fixpoint pd_find (k : value) (d : pydict) : option V :=
  match d with
  | [] => None
  | (k', v) :: r => if py_eq k' k then Some v else pd_find k r
  end.

(** Assignment keeps the key object already stored, and a new key goes to
    the end. *)
Fixpoint pd_store (k : value) (v : V) (d : pydict) : pydict :=
  match d with
  | [] => [(k, v)]
  | (k', v') :: r =>
      if py_eq k' k then (k', v) :: r else (k', v') :: pd_store k v r
  end.

(** The object stored under [k], mutated in place by [f]; the dict itself
    is not touched, and nothing happens when [k] is not a key. *)
Fixpoint pd_mutate (k : value) (f : V -> V) (d : pydict) : pydict :=
  match d with
  | [] => []
  | (k', v) :: r =>
      if py_eq k' k then (k', f v) :: r else (k', v) :: pd_mutate k f r
  end.

Definition unhashable (k : value) : exn :=
  TypeError ("unhashable type: '" +:+ type_name k +:+ "'").

(** [k in d] *)
Definition pd_contains (k : value) (d : pydict) : exn + bool :=
  if hashable k then inr (bool_decide (is_Some (pd_find k d)))
  else inl (unhashable k).

(** [d.get(k, default)] *)
Definition pd_get (k : value) (default : V) (d : pydict) : exn + V :=
  if hashable k then
    match pd_find k d with
    | Some v => inr v
    | None => inr default
    end
  else inl (unhashable k).

(** [d[k]] *)
Definition pd_getitem (k : value) (d : pydict) : exn + V :=
  if hashable k then
    match pd_find k d with
    | Some v => inr v
    | None => inl (KeyError k)
    end
  else inl (unhashable k).

(** [d[k] = v] *)
Definition pd_setitem (k : value) (v : V) (d : pydict) : exn + pydict :=
  if hashable k then inr (pd_store k v d) else inl (unhashable k).

End PyDict.
Arguments pydict V : clear implicits.

(** ** Strings *)

(** [s.startswith(p)] *)
Definition startswith (s p : string) : bool := String.prefix p s.

(** [s.replace(old, new)] for a non-empty [old]: every occurrence found
    scanning from the left is replaced, and the scan resumes after the
    occurrence.  [skip] counts the characters of an occurrence still to be
    dropped. *)
Fixpoint replace_from (old new : string) (skip : nat) (s : string) : string :=
  match s with
  | EmptyString => EmptyString
  | String c r =>
      match skip with
      | S k => replace_from old new k r
      | O =>
          if String.prefix old s
          then new +:+ replace_from old new (String.length old - 1) r
          else String c (replace_from old new 0 r)
      end
  end.

Definition replace (s old new : string) : string := replace_from old new 0 s.

(** ** models/background_message.py *)

(** IEEE binary64, the format of a Python float. *)
Definition prec : Z := 53.
Definition emax : Z := 1024.

Record BackgroundMessage : Type := {
  message_type : string;
  data : option (list (string * value));
  timestamp : spec_float;
  sender : string;
}.

(** The keyword arguments handed to the pydantic model, each given or
    left out.  The annotations fix the type of each field. *)
Record message_kwargs : Type := {
  kw_message_type : option string;
  kw_data : option (list (string * value));
  kw_timestamp : option spec_float;
  kw_sender : option string;
}.

Variant ValidationError : Type :=
| field_required (field : string).

(** The constructor of the model: [message_type] is declared [Field(...)] and
    so required, [data] defaults to [None], [timestamp] to the reading
    [time_time] of [time.time()], and [sender] to ["system"].  No field
    carries a constraint on its content. *)
Definition BackgroundMessage_init (time_time : spec_float) (kw : message_kwargs)
  : ValidationError + BackgroundMessage :=
  match kw_message_type kw with
  | None => inl (field_required "message_type")
  | Some mt =>
      inr {| message_type := mt;
             data := kw_data kw;
             timestamp := match kw_timestamp kw with
                          | Some t => t
                          | None => time_time
                          end;
             sender := match kw_sender kw with
                       | Some s => s
                       | None => "system"
                       end |}
  end.

(** [message.dict()]: the four fields under their names. *)
Definition BackgroundMessage_dict (message : BackgroundMessage)
  : list (string * value) :=
  [("message_type", VStr (message_type message));
   ("data", match data message with Some d => VDict d | None => VNone end);
   ("timestamp", VFloat (timestamp message));
   ("sender", VStr (sender message))].

(** [message.data] as a value, for its truth test. *)
Definition data_value (message : BackgroundMessage) : value :=
  match data message with
  | Some d => VDict d
  | None => VNone
  end.

(** [message.data.get(k, default)] *)
Definition data_get (message : BackgroundMessage) (k : string) (default : value)
  : exn + value :=
  match data message with
  | Some d =>
      match dict_get d k with
      | Some v => inr v
      | None => inr default
      end
  | None => inl (AttributeError "'NoneType' object has no attribute 'get'")
  end.

(** ** interfaces/background_agent.py *)

Record BackgroundAgent : Type := {
  session_id : string;
  _agent_type : string;
  interval : option spec_float;
  subscribed_messages : gset string;
  _is_running : bool;
}.

Definition BackgroundAgent_init (session_id agent_type : string)
    (interval : option spec_float) : BackgroundAgent :=
  {| session_id := session_id;
     _agent_type := agent_type;
     interval := interval;
     subscribed_messages := ∅;
     _is_running := false |}.

(** [self.subscribed_messages.add(message_type)] *)
Definition subscribe_to (message_type : string) (self : BackgroundAgent)
  : BackgroundAgent :=
  {| session_id := session_id self;
     _agent_type := _agent_type self;
     interval := interval self;
     subscribed_messages := {[ message_type ]} ∪ subscribed_messages self;
     _is_running := _is_running self |}.

Definition agent_type (self : BackgroundAgent) : string := _agent_type self.

(** A run of [subscribe_to] calls, first call first. *)
Definition subscribe_all (patterns : list string) (self : BackgroundAgent)
  : BackgroundAgent :=
  foldl (fun a p => subscribe_to p a) self patterns.

(** ** agents/example_agent.py *)

Module SystemMonitorAgent.

(** The dict [self._system_stats]; its four keys are fixed at
    construction.  ["uptime"] starts as the int [0] and becomes a float at
    the first tick; ["active_users"] only ever holds an int. *)
Record system_stats : Type := {
  cpu_usage : spec_float;
  memory_usage : spec_float;
  uptime : value;
  active_users : Z;
}.

Record t : Type := {
  base : BackgroundAgent;
  _last_check_time : spec_float;
  _system_stats : system_stats;
}.

Definition stats_value (st : system_stats) : value :=
  VDict [("cpu_usage", VFloat (cpu_usage st));
         ("memory_usage", VFloat (memory_usage st));
         ("uptime", uptime st);
         ("active_users", VInt (active_users st))].

Definition set_stats (st : system_stats) : M t unit :=
  fun self =>
    (Returned tt,
     {| base := base self;
        _last_check_time := _last_check_time self;
        _system_stats := st |},
     []).

Definition set_last_check_time (now : spec_float) : M t unit :=
  fun self =>
    (Returned tt,
     {| base := base self;
        _last_check_time := now;
        _system_stats := _system_stats self |},
     []).

(** The float [60.0]. *)
Definition sixty : spec_float := S754_finite false 8444249301319680 (-47).

(** [__init__]; [time_time] is the reading of [time.time()]. *)
Definition init (session_id : string) (time_time : spec_float)
  : t * list log_record :=
  let b := BackgroundAgent_init session_id "system_monitor" (Some sixty) in
  let b := subscribe_to "system.status.request" b in
  let b := subscribe_to "system.resource.request" b in
  let b := subscribe_to "user.action.*" b in
  ({| base := b;
      _last_check_time := time_time;
      _system_stats := {| cpu_usage := S754_zero false;
                          memory_usage := S754_zero false;
                          uptime := VInt 0;
                          active_users := 0 |} |},
   [LogRecord INFO [Lit "SystemMonitorAgent initialized with session_id: ";
                    Fmt (VStr session_id)]]).

(** [float(z)], which overflows past the largest finite binary64. *)
Definition float_of_int (z : Z) : exn + spec_float :=
  match binary_normalize prec emax z 0 false with
  | S754_infinity _ => inl (OverflowError "int too large to convert to float")
  | f => inr f
  end.

(** [u + elapsed] with a float on the right. *)
Definition add_float (u : value) (elapsed : spec_float) : exn + value :=
  match u with
  | VFloat f => inr (VFloat (SFadd prec emax f elapsed))
  | VInt z =>
      match float_of_int z with
      | inr f => inr (VFloat (SFadd prec emax f elapsed))
      | inl e => inl e
      end
  | VBool b =>
      match float_of_int (if b then 1 else 0) with
      | inr f => inr (VFloat (SFadd prec emax f elapsed))
      | inl e => inl e
      end
  | _ => inl (TypeError ("unsupported operand type(s) for +=: '"
                         +:+ type_name u +:+ "' and 'float'"))
  end.

(** The periodic hook.  [time_time] is the clock reading, [cpu] and [mem]
    the two draws of [random.uniform]. *)
Definition process (time_time cpu mem : spec_float) : M t unit :=
  try_except
    (let* self := get_self in
     let current_time := time_time in
     let elapsed := SFsub prec emax current_time (_last_check_time self) in
     set_last_check_time current_time ;;
     let* self := get_self in
     let st := _system_stats self in
     let* up := lift (add_float (uptime st) elapsed) in
     set_stats {| cpu_usage := cpu_usage st;
                  memory_usage := memory_usage st;
                  uptime := up;
                  active_users := active_users st |} ;;
     let* self := get_self in
     let st := _system_stats self in
     set_stats {| cpu_usage := cpu;
                  memory_usage := memory_usage st;
                  uptime := uptime st;
                  active_users := active_users st |} ;;
     let* self := get_self in
     let st := _system_stats self in
     set_stats {| cpu_usage := cpu_usage st;
                  memory_usage := mem;
                  uptime := uptime st;
                  active_users := active_users st |} ;;
     let* self := get_self in
     logger INFO [Lit "SystemMonitorAgent processed: ";
                  Fmt (stats_value (_system_stats self))])%hook
    (fun e => logger ERROR [Lit "Error in SystemMonitorAgent.process: ";
                            FmtExn e]).

Definition _handle_status_request (message : BackgroundMessage) : M t unit :=
  (logger INFO [Lit "Status request received from ";
                Fmt (VStr (sender message))] ;;
   let* self := get_self in
   logger INFO [Lit "Current system status: ";
                Fmt (stats_value (_system_stats self))])%hook.

Definition _handle_resource_request (message : BackgroundMessage) : M t unit :=
  (let* resource_type :=
     if truthy (data_value message)
     then lift (data_get message "resource_type" VNone)
     else ret VNone in
   let* self := get_self in
   let st := _system_stats self in
   if py_eq resource_type (VStr "cpu") then
     logger INFO [Lit "CPU usage: "; Fmt (VFloat (cpu_usage st)); Lit "%"]
   else if py_eq resource_type (VStr "memory") then
     logger INFO [Lit "Memory usage: "; Fmt (VFloat (memory_usage st)); Lit "%"]
   else if py_eq resource_type (VStr "uptime") then
     logger INFO [Lit "System uptime: "; FmtHours (uptime st); Lit " hours"]
   else
     logger INFO [Lit "Unknown resource type requested: "; Fmt resource_type])%hook.

Definition _handle_user_action (message : BackgroundMessage) : M t unit :=
  (let action_type := replace (message_type message) "user.action." "" in
   logger INFO [Lit "User action detected: "; Fmt (VStr action_type)] ;;
   let* self := get_self in
   let st := _system_stats self in
   if String.eqb action_type "login" then
     set_stats {| cpu_usage := cpu_usage st;
                  memory_usage := memory_usage st;
                  uptime := uptime st;
                  active_users := active_users st + 1 |}
   else if String.eqb action_type "logout" then
     set_stats {| cpu_usage := cpu_usage st;
                  memory_usage := memory_usage st;
                  uptime := uptime st;
                  active_users := Z.max 0 (active_users st - 1) |}
   else ret tt)%hook.

(** The message hook. *)
Definition process_message (message : BackgroundMessage) : M t unit :=
  try_except
    (logger INFO [Lit "Processing message: ";
                  Fmt (VStr (message_type message))] ;;
     if String.eqb (message_type message) "system.status.request" then
       _handle_status_request message
     else if String.eqb (message_type message) "system.resource.request" then
       _handle_resource_request message
     else if startswith (message_type message) "user.action." then
       _handle_user_action message
     else ret tt)%hook
    (fun e => logger ERROR [Lit "Error processing message ";
                            Fmt (VStr (message_type message));
                            Lit ": "; FmtExn e]).

End SystemMonitorAgent.

(** ** agents/notification_agent.py *)

Module NotificationAgent.

(** The dict built by [_create_notification].  All seven keys are always
    present; ["read"] and ["dismissed"] only ever hold [True] or [False]. *)
Record notification : Type := {
  notif_id : value;
  notif_title : value;
  notif_message : value;
  notif_type : value;
  notif_created_at : value;
  notif_read : bool;
  notif_dismissed : bool;
}.

(** [notification["dismissed"] = True] *)
Definition set_dismissed (n : notification) : notification :=
  {| notif_id := notif_id n;
     notif_title := notif_title n;
     notif_message := notif_message n;
     notif_type := notif_type n;
     notif_created_at := notif_created_at n;
     notif_read := notif_read n;
     notif_dismissed := true |}.

(** [notification["read"] = True] *)
Definition set_read (n : notification) : notification :=
  {| notif_id := notif_id n;
     notif_title := notif_title n;
     notif_message := notif_message n;
     notif_type := notif_type n;
     notif_created_at := notif_created_at n;
     notif_read := true;
     notif_dismissed := notif_dismissed n |}.

Record t : Type := {
  base : BackgroundAgent;
  _notifications : pydict (list notification);
  _user_sessions : pydict bool;
}.

Definition set_notifications (d : pydict (list notification)) : M t unit :=
  fun self =>
    (Returned tt,
     {| base := base self;
        _notifications := d;
        _user_sessions := _user_sessions self |},
     []).

Definition set_user_sessions (d : pydict bool) : M t unit :=
  fun self =>
    (Returned tt,
     {| base := base self;
        _notifications := _notifications self;
        _user_sessions := d |},
     []).

(** [__init__] *)
Definition init (session_id : string) : t * list log_record :=
  let b := BackgroundAgent_init session_id "notification_manager" None in
  let b := subscribe_to "notification.create" b in
  let b := subscribe_to "notification.dismiss" b in
  let b := subscribe_to "notification.list" b in
  let b := subscribe_to "user.session.*" b in
  ({| base := b; _notifications := []; _user_sessions := [] |},
   [LogRecord INFO [Lit "NotificationAgent initialized with session_id: ";
                    Fmt (VStr session_id)]]).

(** The periodic hook: [pass]. *)
Definition process : M t unit := ret tt.

(** [loop_time] is the reading of [asyncio.get_event_loop().time()].
    The default of each [get] is evaluated before the [get] itself, so the
    lookup of [user_id] in the store comes first and raises on a key that
    cannot be hashed.

    When [user_id] is not yet a key, the source stores an empty list under
    it and then appends through [self._notifications[user_id]]: that
    subscript is handed the key object just stored and finds its entry by
    identity, also for a NaN, which [==] would not find.  The two
    statements are therefore modelled as storing the one-element list. *)
Definition _create_notification (loop_time : spec_float)
    (message : BackgroundMessage) : M t unit :=
  (if negb (truthy (data_value message)) then
     logger WARNING [Lit "Notification create message missing data"]
   else
     let* user_id := lift (data_get message "user_id" VNone) in
     if negb (truthy user_id) then
       logger WARNING [Lit "Notification missing user_id"]
     else
       let* self := get_self in
       let* existing := lift (pd_get user_id [] (_notifications self)) in
       let* n_id := lift (data_get message "id"
                            (VStr ("notif_" +:+ pretty (length existing)))) in
       let* n_title := lift (data_get message "title" (VStr "Notification")) in
       let* n_message := lift (data_get message "message" (VStr "")) in
       let* n_type := lift (data_get message "type" (VStr "info")) in
       let* n_created := lift (data_get message "created_at" (VFloat loop_time)) in
       let notification :=
         {| notif_id := n_id;
            notif_title := n_title;
            notif_message := n_message;
            notif_type := n_type;
            notif_created_at := n_created;
            notif_read := false;
            notif_dismissed := false |} in
       let* present := lift (pd_contains user_id (_notifications self)) in
       (if negb present then
          let* d := lift (pd_setitem user_id [notification]
                            (_notifications self)) in
          set_notifications d
        else
          let* _ := lift (pd_getitem user_id (_notifications self)) in
          set_notifications
            (pd_mutate user_id (fun l => l ++ [notification])
               (_notifications self))) ;;
       logger INFO [Lit "Created notification for user "; Fmt user_id;
                    Lit ": "; Fmt (notif_title notification)] ;;
       let* self := get_self in
       let* active := lift (pd_get user_id false (_user_sessions self)) in
       if active then
         logger INFO [Lit "User "; Fmt user_id;
                      Lit " is active, sending real-time notification"]
       else ret tt)%hook.

(** The [for ... break] loop of [_dismiss_notification]: the list after
    the loop, and whether a notification was found. *)
Fixpoint dismiss_loop (notification_id : value) (l : list notification)
  : list notification * bool :=
  match l with
  | [] => ([], false)
  | n :: r =>
      if py_eq (notif_id n) notification_id then (set_dismissed n :: r, true)
      else let '(r', found) := dismiss_loop notification_id r in (n :: r', found)
  end.

Definition _dismiss_notification (message : BackgroundMessage) : M t unit :=
  (if negb (truthy (data_value message)) then ret tt
   else
     let* user_id := lift (data_get message "user_id" VNone) in
     let* notification_id := lift (data_get message "notification_id" VNone) in
     if negb (truthy user_id) || negb (truthy notification_id) then
       logger WARNING [Lit "Dismiss notification missing user_id or notification_id"]
     else
       let* self := get_self in
       let* present := lift (pd_contains user_id (_notifications self)) in
       if present then
         let* l := lift (pd_getitem user_id (_notifications self)) in
         set_notifications
           (pd_mutate user_id (fun l => (dismiss_loop notification_id l).1)
              (_notifications self)) ;;
         if (dismiss_loop notification_id l).2 then
           logger INFO [Lit "Dismissed notification "; Fmt notification_id;
                        Lit " for user "; Fmt user_id]
         else ret tt
       else ret tt)%hook.

(** The notifications that [_list_notifications] walks are the very
    objects held in the store: a notification is named by its position in
    the user's stored list.  [live_refs] is the comprehension that keeps
    the notifications not dismissed, [mark_read] the loop that follows. *)
Definition live_refs (stored : list notification) (refs : list nat) : list nat :=
  List.filter (fun i => match stored !! i with
                        | Some n => negb (notif_dismissed n)
                        | None => false
                        end) refs.

Definition mark_read (refs : list nat) (stored : list notification)
  : list notification :=
  foldl (fun acc i => alter set_read i acc) stored refs.

Definition _list_notifications (message : BackgroundMessage) : M t unit :=
  (if negb (truthy (data_value message)) then ret tt
   else
     let* user_id := lift (data_get message "user_id" VNone) in
     let* include_dismissed :=
       lift (data_get message "include_dismissed" (VBool false)) in
     if negb (truthy user_id) then
       logger WARNING [Lit "List notifications missing user_id"]
     else
       let* self := get_self in
       let* stored := lift (pd_get user_id [] (_notifications self)) in
       let user_notifications := seq 0 (length stored) in
       let user_notifications :=
         if negb (truthy include_dismissed)
         then live_refs stored user_notifications
         else user_notifications in
       set_notifications
         (pd_mutate user_id (mark_read user_notifications)
            (_notifications self)) ;;
       logger INFO [Lit "Listed "; FmtLen (length user_notifications);
                    Lit " notifications for user "; Fmt user_id])%hook.

(** The comprehension of [_handle_session_start]. *)
Definition pending (l : list notification) : list notification :=
  List.filter (fun n => negb (notif_read n) && negb (notif_dismissed n)) l.

Definition _handle_session_start (message : BackgroundMessage) : M t unit :=
  (if negb (truthy (data_value message)) then ret tt
   else
     let* user_id := lift (data_get message "user_id" VNone) in
     if negb (truthy user_id) then ret tt
     else
       let* self := get_self in
       let* d := lift (pd_setitem user_id true (_user_sessions self)) in
       set_user_sessions d ;;
       logger INFO [Lit "User "; Fmt user_id; Lit " session started"] ;;
       let* self := get_self in
       let* l := lift (pd_get user_id [] (_notifications self)) in
       let pending_notifications := pending l in
       match pending_notifications with
       | _ :: _ =>
           logger INFO [Lit "User "; Fmt user_id; Lit " has ";
                        FmtLen (length pending_notifications);
                        Lit " pending notifications"]
       | [] => ret tt
       end)%hook.

Definition _handle_session_end (message : BackgroundMessage) : M t unit :=
  (if negb (truthy (data_value message)) then ret tt
   else
     let* user_id := lift (data_get message "user_id" VNone) in
     if negb (truthy user_id) then ret tt
     else
       let* self := get_self in
       let* d := lift (pd_setitem user_id false (_user_sessions self)) in
       set_user_sessions d ;;
       logger INFO [Lit "User "; Fmt user_id; Lit " session ended"])%hook.

(** The message hook. *)
Definition process_message (loop_time : spec_float)
    (message : BackgroundMessage) : M t unit :=
  try_except
    (logger INFO [Lit "Processing message: ";
                  Fmt (VStr (message_type message))] ;;
     if String.eqb (message_type message) "notification.create" then
       _create_notification loop_time message
     else if String.eqb (message_type message) "notification.dismiss" then
       _dismiss_notification message
     else if String.eqb (message_type message) "notification.list" then
       _list_notifications message
     else if String.eqb (message_type message) "user.session.start" then
       _handle_session_start message
     else if String.eqb (message_type message) "user.session.end" then
       _handle_session_end message
     else ret tt)%hook
    (fun e => logger ERROR [Lit "Error processing message ";
                            Fmt (VStr (message_type message));
                            Lit ": "; FmtExn e]).

End NotificationAgent.

(** * Vocabulary of the properties *)

(** ** Hooks *)

(** A body that raises nothing an [except Exception] would let through. *)
Definition catchable {S A} (m : M S A) : Prop :=
  forall s e, result_of (m s) = Raised e -> is_Exception e = true.

(** What [message.data.get(k, default)] evaluates to on a message that
    carries a payload, and [default] on one that carries none. *)
Definition payload (message : BackgroundMessage) (k : string) (default : value)
  : value :=
  match data message with
  | Some d => match dict_get d k with Some v => v | None => default end
  | None => default
  end.

(** ** The system monitor *)

(** The record [_handle_user_action] logs first. *)
Definition user_action_record (action_type : string) : log_record :=
  LogRecord INFO [Lit "User action detected: "; Fmt (VStr action_type)].

(** The message went down the [user.action.] branch of the hook: the
    record of [_handle_user_action] is among those the hook logged. *)
Definition takes_user_action_branch
    (message : BackgroundMessage) (self : SystemMonitorAgent.t) : Prop :=
  exists action_type,
    user_action_record action_type
    ∈ log_of (SystemMonitorAgent.process_message message self).

(** The agent [_handle_user_action] leaves behind. *)
Definition after_user_action
    (message : BackgroundMessage) (self : SystemMonitorAgent.t)
  : SystemMonitorAgent.t :=
  state_of (SystemMonitorAgent._handle_user_action message self).

(** [self._system_stats["active_users"]] *)
Definition active_users_of (self : SystemMonitorAgent.t) : Z :=
  SystemMonitorAgent.active_users (SystemMonitorAgent._system_stats self).

(** ** The notification agent *)

(** [self] with its store replaced. *)
Definition with_notifications
    (d : pydict (list NotificationAgent.notification))
    (self : NotificationAgent.t) : NotificationAgent.t :=
  {| NotificationAgent.base := NotificationAgent.base self;
     NotificationAgent._notifications := d;
     NotificationAgent._user_sessions := NotificationAgent._user_sessions self |}.

(** The guards a message passes before [_create_notification],
    [_dismiss_notification] and [_list_notifications] reach the store: a
    payload that is not empty, a truthy [user_id] that can be hashed, and
    for a dismissal a truthy [notification_id]. *)
Definition creation_applies (message : BackgroundMessage) : bool :=
  truthy (data_value message)
  && truthy (payload message "user_id" VNone)
  && hashable (payload message "user_id" VNone).

Definition dismissal_applies (message : BackgroundMessage) : bool :=
  truthy (data_value message)
  && truthy (payload message "user_id" VNone)
  && truthy (payload message "notification_id" VNone)
  && hashable (payload message "user_id" VNone).

Definition listing_applies (message : BackgroundMessage) : bool :=
  truthy (data_value message)
  && truthy (payload message "user_id" VNone)
  && hashable (payload message "user_id" VNone).

(** The dict [_create_notification] builds when the user already has
    the notifications [existing]. *)
Definition created_notification (loop_time : spec_float)
    (message : BackgroundMessage)
    (existing : list NotificationAgent.notification)
  : NotificationAgent.notification :=
  {| NotificationAgent.notif_id :=
       payload message "id" (VStr ("notif_" +:+ pretty (length existing)));
     NotificationAgent.notif_title :=
       payload message "title" (VStr "Notification");
     NotificationAgent.notif_message := payload message "message" (VStr "");
     NotificationAgent.notif_type := payload message "type" (VStr "info");
     NotificationAgent.notif_created_at :=
       payload message "created_at" (VFloat loop_time);
     NotificationAgent.notif_read := false;
     NotificationAgent.notif_dismissed := false |}.

(** The notifications [_list_notifications] walks, by position, and
    whether a given one is among them. *)
Definition selected (include_dismissed : value)
    (stored : list NotificationAgent.notification) : list nat :=
  if negb (truthy include_dismissed)
  then NotificationAgent.live_refs stored (seq 0 (length stored))
  else seq 0 (length stored).

Definition listed (include_dismissed : value)
    (n : NotificationAgent.notification) : bool :=
  truthy include_dismissed || negb (NotificationAgent.notif_dismissed n).


(** The states a notification agent goes through: it is constructed, and
    from then on only its two hooks run on it. *)
Inductive reachable : NotificationAgent.t -> Prop :=
| reachable_init session_id :
    reachable (NotificationAgent.init session_id).1
| reachable_tick self :
    reachable self -> reachable (state_of (NotificationAgent.process self))
| reachable_message loop_time message self :
    reachable self ->
    reachable (state_of (NotificationAgent.process_message
                           loop_time message self)).

(** ** Sample agents and messages *)

(** A logout reaching a monitor that counts no user. *)
Definition logout_message : BackgroundMessage :=
  {| message_type := "user.action.logout";
     data := None;
     timestamp := S754_zero false;
     sender := "system" |}.

Definition new_monitor : SystemMonitorAgent.t :=
  (SystemMonitorAgent.init "session" (S754_zero false)).1.

Definition sample_agent : NotificationAgent.t :=
  (NotificationAgent.init "session").1.

Definition create_without_user : BackgroundMessage :=
  {| message_type := "notification.create";
     data := Some [("title", VStr "Hello")];
     timestamp := S754_zero false;
     sender := "system" |}.

Definition create_for_a_list : BackgroundMessage :=
  {| message_type := "notification.create";
     data := Some [("user_id", VList [VInt 1])];
     timestamp := S754_zero false;
     sender := "system" |}.

Definition create_seven : BackgroundMessage :=
  {| message_type := "notification.create";
     data := Some [("user_id", VStr "user123"); ("id", VInt 7)];
     timestamp := S754_zero false;
     sender := "system" |}.

(** Two notifications of one user under the same id. *)
Definition two_notifications : NotificationAgent.t :=
  state_of
    (NotificationAgent.process_message (S754_zero false) create_seven
       (state_of
          (NotificationAgent.process_message (S754_zero false) create_seven
             sample_agent))).

Definition dismiss_seven : BackgroundMessage :=
  {| message_type := "notification.dismiss";
     data := Some [("user_id", VStr "user123"); ("notification_id", VInt 7)];
     timestamp := S754_zero false;
     sender := "system" |}.

Definition one_dismissed : NotificationAgent.t :=
  state_of (NotificationAgent.process_message (S754_zero false) dismiss_seven
              two_notifications).

Definition list_user123 : BackgroundMessage :=
  {| message_type := "notification.list";
     data := Some [("user_id", VStr "user123")];
     timestamp := S754_zero false;
     sender := "system" |}.

(** ** Vocabulary of the further properties *)

(** [self] with its session table replaced. *)
Definition with_user_sessions (d : pydict bool) (self : NotificationAgent.t)
  : NotificationAgent.t :=
  {| NotificationAgent.base := NotificationAgent.base self;
     NotificationAgent._notifications := NotificationAgent._notifications self;
     NotificationAgent._user_sessions := d |}.

(** A notification and what it may become: its content fields are kept,
    and a flag that is [True] stays [True]. *)
Definition notification_evolves
    (n n' : NotificationAgent.notification) : Prop :=
  NotificationAgent.notif_id n' = NotificationAgent.notif_id n
  /\ NotificationAgent.notif_title n' = NotificationAgent.notif_title n
  /\ NotificationAgent.notif_message n' = NotificationAgent.notif_message n
  /\ NotificationAgent.notif_type n' = NotificationAgent.notif_type n
  /\ NotificationAgent.notif_created_at n'
     = NotificationAgent.notif_created_at n
  /\ (NotificationAgent.notif_read n = true ->
      NotificationAgent.notif_read n' = true)
  /\ (NotificationAgent.notif_dismissed n = true ->
      NotificationAgent.notif_dismissed n' = true).

(** Every notification of [l] is still in [l'], at its position. *)
Definition list_extends (l l' : list NotificationAgent.notification) : Prop :=
  forall j n, l !! j = Some n ->
              exists n', l' !! j = Some n' /\ notification_evolves n n'.

(** Every entry of the store [d] is still in [d'], at its position and
    under its key. *)
Definition store_extends
    (d d' : pydict (list NotificationAgent.notification)) : Prop :=
  forall i k l, d !! i = Some (k, l) ->
                exists l', d' !! i = Some (k, l') /\ list_extends l l'.

(** The messages an agent receives one after the other, each with the
    reading of the loop clock at its delivery. *)
Definition deliver (inputs : list (spec_float * BackgroundMessage))
    (self : NotificationAgent.t) : NotificationAgent.t :=
  foldl (fun a '(loop_time, message) =>
           state_of (NotificationAgent.process_message loop_time message a))
        self inputs.

(** The record [process_message] logs first. *)
Definition processing_record (message : BackgroundMessage) : log_record :=
  LogRecord INFO [Lit "Processing message: ";
                  Fmt (VStr (message_type message))].


Definition login_message : BackgroundMessage :=
  {| message_type := "user.action.login";
     data := None;
     timestamp := S754_zero false;
     sender := "system" |}.

Definition session_start_user123 : BackgroundMessage :=
  {| message_type := "user.session.start";
     data := Some [("user_id", VStr "user123")];
     timestamp := S754_zero false;
     sender := "system" |}.

(** A type under the agent's ["user.session.*"] subscription that is
    neither a start nor an end. *)
Definition session_pause_user123 : BackgroundMessage :=
  {| message_type := "user.session.pause";
     data := Some [("user_id", VStr "user123")];
     timestamp := S754_zero false;
     sender := "system" |}.


(** [_list_notifications] on one notification: read when it is listed. *)
Definition mark_listed (include_dismissed : value)
    (n : NotificationAgent.notification) : NotificationAgent.notification :=
  if listed include_dismissed n then NotificationAgent.set_read n else n.

(** A key the handlers let through their guards. *)
Definition usable_key (k : value) : Prop :=
  truthy k = true /\ hashable k = true.

(** The base agent [NotificationAgent.__init__] builds. *)
Definition notification_base (session_id : string) : BackgroundAgent :=
  subscribe_all ["notification.create"; "notification.dismiss";
                 "notification.list"; "user.session.*"]
    (BackgroundAgent_init session_id "notification_manager" None).

(** Both dictionaries are keyed by usable values, no user of the store
    has an empty list, and the base agent is as constructed. *)
Definition well_formed (self : NotificationAgent.t) : Prop :=
  Forall usable_key (NotificationAgent._notifications self).*1
  /\ Forall usable_key (NotificationAgent._user_sessions self).*1
  /\ Forall (fun l => l <> []) (NotificationAgent._notifications self).*2
  /\ exists session_id,
       NotificationAgent.base self = notification_base session_id.

(** The states a monitor goes through: it is constructed, and from then
    on only its two hooks run on it, the periodic one with any clock
    reading and any two random draws. *)
Inductive monitor_reachable : SystemMonitorAgent.t -> Prop :=
| monitor_reachable_init session_id time_time :
    monitor_reachable (SystemMonitorAgent.init session_id time_time).1
| monitor_reachable_tick time_time cpu mem self :
    monitor_reachable self ->
    monitor_reachable
      (state_of (SystemMonitorAgent.process time_time cpu mem self))
| monitor_reachable_message message self :
    monitor_reachable self ->
    monitor_reachable
      (state_of (SystemMonitorAgent.process_message message self)).

(** The uptime is the int [0] of [__init__] or a float. *)
Definition uptime_shape (st : SystemMonitorAgent.system_stats) : Prop :=
  SystemMonitorAgent.uptime st = VInt 0
  \/ exists f, SystemMonitorAgent.uptime st = VFloat f.

Definition monitor_sound (self : SystemMonitorAgent.t) : Prop :=
  (0 <= active_users_of self)%Z
  /\ uptime_shape (SystemMonitorAgent._system_stats self)
  /\ exists session_id,
       SystemMonitorAgent.base self
       = subscribe_all ["system.status.request"; "system.resource.request";
                        "user.action.*"]
           (BackgroundAgent_init session_id "system_monitor"
              (Some SystemMonitorAgent.sixty)).

(** A monitor after one tick and one login. *)
Definition monitor_after_a_login : SystemMonitorAgent.t :=
  state_of
    (SystemMonitorAgent.process_message login_message
       (state_of
          (SystemMonitorAgent.process (S754_zero false) (S754_zero false)
             (S754_zero false) new_monitor))).

(** A dismissal followed by a listing. *)
Definition dismiss_then_list : list (spec_float * BackgroundMessage) :=
  [(S754_zero false, dismiss_seven); (S754_zero false, list_user123)].







(** * Properties *)

(** ** Running a hook *)

Section HookFacts.
Context {S : Type}.

Lemma bind_run {A B} (m : M S A) (k : A -> M S B) (s : S) :
  bind m k s =
  match m s with
  | (Returned a, s', l) =>
      (result_of (k a s'), state_of (k a s'), l ++ log_of (k a s'))
  | (Raised e, s', l) => (Raised e, s', l)
  end.
Proof.
  unfold bind. destruct (m s) as [[[a|e] s'] l]; [|reflexivity].
  destruct (k a s') as [[r s''] l']. reflexivity.
Qed.


Lemma bind_lift_inl {A B} (e : exn) (k : A -> M S B) (s : S) :
  bind (lift (inl e)) k s = (Raised e, s, []).
Proof. reflexivity. Qed.

Lemma bind_get_self {B} (k : S -> M S B) (s : S) :
  bind get_self k s = k s s.
Proof. rewrite bind_run. simpl. by destruct (k s s) as [[r s'] l]. Qed.

Lemma bind_ret {A B} (a : A) (k : A -> M S B) (s : S) :
  bind (ret a) k s = k a s.
Proof. rewrite bind_run. simpl. by destruct (k a s) as [[r s'] l]. Qed.

Lemma bind_logger {B} lv text (k : unit -> M S B) (s : S) :
  bind (logger lv text) k s =
  (result_of (k tt s), state_of (k tt s), LogRecord lv text :: log_of (k tt s)).
Proof. rewrite bind_run. reflexivity. Qed.

Lemma catchable_ret {A} (a : A) : catchable (S:=S) (ret a).
Proof. intros s e H. discriminate H. Qed.

Lemma catchable_logger lv text : catchable (S:=S) (logger lv text).
Proof. intros s e H. discriminate H. Qed.

Lemma catchable_get_self : catchable (@get_self S).
Proof. intros s e H. discriminate H. Qed.

Lemma catchable_lift {A} (r : exn + A) :
  (forall e, r = inl e -> is_Exception e = true) -> catchable (S:=S) (lift r).
Proof.
  intros Hr s e H. destruct r as [e'|a]; [|discriminate H].
  injection H as <-. by apply Hr.
Qed.

Lemma catchable_bind {A B} (m : M S A) (k : A -> M S B) :
  catchable m -> (forall a, catchable (k a)) -> catchable (bind m k).
Proof.
  intros Hm Hk s e. rewrite bind_run.
  destruct (m s) as [[[a|e'] s'] l] eqn:E; simpl.
  - apply Hk.
  - intros [= <-]. apply (Hm s). by rewrite E.
Qed.

Lemma catchable_if {A} (b : bool) (m1 m2 : M S A) :
  catchable m1 -> catchable m2 -> catchable (if b then m1 else m2).
Proof. by destruct b. Qed.

(** [try ... except Exception] around a catchable body, with a handler
    that only logs, always returns. *)
Lemma try_except_returns (body : M S unit) (text : exn -> list frag) (s : S) :
  catchable body ->
  result_of (try_except body (fun e => logger ERROR (text e)) s) = Returned tt.
Proof.
  intros Hb. unfold try_except.
  destruct (body s) as [[[[]|e] s'] l] eqn:E; [reflexivity|].
  rewrite (Hb s e); [reflexivity|]. by rewrite E.
Qed.

End HookFacts.

Lemma pd_get_catchable {V} k (dflt : V) d e :
  pd_get k dflt d = inl e -> is_Exception e = true.
Proof. unfold pd_get. destruct (hashable k), (pd_find k d); by intros [= <-]. Qed.

Lemma pd_contains_catchable {V} k (d : pydict V) e :
  pd_contains k d = inl e -> is_Exception e = true.
Proof. unfold pd_contains. destruct (hashable k); by intros [= <-]. Qed.

Lemma pd_getitem_catchable {V} k (d : pydict V) e :
  pd_getitem k d = inl e -> is_Exception e = true.
Proof. unfold pd_getitem. destruct (hashable k), (pd_find k d); by intros [= <-]. Qed.

Lemma pd_setitem_catchable {V} k (v : V) d e :
  pd_setitem k v d = inl e -> is_Exception e = true.
Proof. unfold pd_setitem. destruct (hashable k); by intros [= <-]. Qed.

Lemma data_get_catchable message k dflt e :
  data_get message k dflt = inl e -> is_Exception e = true.
Proof.
  unfold data_get. destruct (data message) as [d|]; [|by intros [= <-]].
  by destruct (dict_get d k).
Qed.

Create HintDb catchable.
#[export] Hint Resolve catchable_ret catchable_logger catchable_get_self
  catchable_bind catchable_if : catchable.
#[export] Hint Resolve pd_get_catchable pd_contains_catchable
  pd_getitem_catchable pd_setitem_catchable data_get_catchable : catchable.

Ltac catchable :=
  repeat first
    [ progress intros
    | progress cbv zeta
    | apply catchable_bind
    | apply catchable_if
    | apply catchable_ret
    | apply catchable_logger
    | apply catchable_get_self
    | apply catchable_lift; eauto with catchable
    | match goal with |- catchable (match ?x with _ => _ end) => destruct x end
    | match goal with |- catchable (let '(_, _) := ?x in _) => destruct x end ].

Lemma catchable_set_stats st : catchable (SystemMonitorAgent.set_stats st).
Proof. intros s e H. discriminate H. Qed.

Lemma catchable_set_notifications d :
  catchable (NotificationAgent.set_notifications d).
Proof. intros s e H. discriminate H. Qed.

Lemma catchable_set_user_sessions d :
  catchable (NotificationAgent.set_user_sessions d).
Proof. intros s e H. discriminate H. Qed.

#[export] Hint Resolve catchable_set_stats catchable_set_notifications
  catchable_set_user_sessions : catchable.

Lemma catchable_handle_resource_request message :
  catchable (SystemMonitorAgent._handle_resource_request message).
Proof.
  unfold SystemMonitorAgent._handle_resource_request.
  catchable; eauto with catchable.
Qed.

Lemma catchable_handle_user_action message :
  catchable (SystemMonitorAgent._handle_user_action message).
Proof.
  unfold SystemMonitorAgent._handle_user_action.
  catchable; eauto with catchable.
Qed.

Lemma catchable_create_notification loop_time message :
  catchable (NotificationAgent._create_notification loop_time message).
Proof.
  unfold NotificationAgent._create_notification.
  catchable; eauto with catchable.
Qed.

Lemma catchable_dismiss_notification message :
  catchable (NotificationAgent._dismiss_notification message).
Proof.
  unfold NotificationAgent._dismiss_notification.
  catchable; eauto with catchable.
Qed.

Lemma catchable_list_notifications message :
  catchable (NotificationAgent._list_notifications message).
Proof.
  unfold NotificationAgent._list_notifications.
  catchable; eauto with catchable.
Qed.

Lemma catchable_handle_session_start message :
  catchable (NotificationAgent._handle_session_start message).
Proof.
  unfold NotificationAgent._handle_session_start.
  catchable; eauto with catchable.
Qed.

Lemma catchable_handle_session_end message :
  catchable (NotificationAgent._handle_session_end message).
Proof.
  unfold NotificationAgent._handle_session_end.
  catchable; eauto with catchable.
Qed.

(** C4.  The message hook of either agent returns normally on every
    message and from every state: whatever is raised while the message is
    handled is caught by the hook's own [except Exception] clause, whose
    handler only logs. *)
Theorem process_message_never_raises
    (loop_time : spec_float) (message : BackgroundMessage)
    (monitor : SystemMonitorAgent.t) (notifier : NotificationAgent.t) :
  result_of (SystemMonitorAgent.process_message message monitor) = Returned tt
  /\ result_of (NotificationAgent.process_message loop_time message notifier)
     = Returned tt.
Proof.
  split.
  - unfold SystemMonitorAgent.process_message.
    apply try_except_returns.
    unfold SystemMonitorAgent._handle_status_request.
    catchable;
      auto using catchable_handle_resource_request,
                 catchable_handle_user_action with catchable.
  - unfold NotificationAgent.process_message.
    apply try_except_returns.
    catchable;
      auto using catchable_create_notification, catchable_dismiss_notification,
                 catchable_list_notifications, catchable_handle_session_start,
                 catchable_handle_session_end with catchable.
Qed.

(** The clause is not idle: a [user_id] that is a list makes
    [_create_notification] raise on its first lookup in the store, and the
    hook returns all the same, the agent untouched and the error logged. *)
Example unhashable_user_id_is_caught :
  result_of (NotificationAgent._create_notification (S754_zero false)
               create_for_a_list sample_agent)
  = Raised (TypeError "unhashable type: 'list'")
  /\ NotificationAgent.process_message (S754_zero false)
       create_for_a_list sample_agent
     = (Returned tt, sample_agent,
        [LogRecord INFO [Lit "Processing message: ";
                         Fmt (VStr "notification.create")];
         LogRecord ERROR [Lit "Error processing message ";
                          Fmt (VStr "notification.create"); Lit ": ";
                          FmtExn (TypeError "unhashable type: 'list'")]]).
Proof. split; reflexivity. Qed.

(** ** The message model *)

(** C1, as the code has it.  [message_type] is required and nothing more:
    a construction that leaves it out is rejected, and one that gives a
    string, the empty one included, yields a message carrying exactly that
    string. *)
Theorem message_type_required_not_checked
    (time_time : spec_float) (kw : message_kwargs) :
  (kw_message_type kw = None ->
   BackgroundMessage_init time_time kw = inl (field_required "message_type"))
  /\ (forall s : string,
        kw_message_type kw = Some s ->
        exists m, BackgroundMessage_init time_time kw = inr m
                  /\ message_type m = s).
Proof.
  unfold BackgroundMessage_init. split.
  - intros ->. reflexivity.
  - intros s ->. eexists. split; reflexivity.
Qed.

(** C1 fails as stated: the model accepts the empty string as a type. *)
Example empty_message_type_accepted :
  BackgroundMessage_init (S754_zero false)
    {| kw_message_type := Some "";
       kw_data := None;
       kw_timestamp := None;
       kw_sender := None |}
  = inr {| message_type := "";
           data := None;
           timestamp := S754_zero false;
           sender := "system" |}.
Proof. reflexivity. Qed.

(** ** Subscriptions *)

Lemma subscribe_all_subscribed (patterns : list string) (self : BackgroundAgent) :
  subscribed_messages (subscribe_all patterns self)
  = list_to_set patterns ∪ subscribed_messages self.
Proof.
  unfold subscribe_all. revert self.
  induction patterns as [|p ps IH]; intros self; simpl.
  - by rewrite union_empty_l_L.
  - rewrite IH. simpl. apply set_eq. intros x.
    rewrite !elem_of_union, elem_of_singleton. tauto.
Qed.

Lemma subscribe_all_frame (patterns : list string) (self : BackgroundAgent) :
  session_id (subscribe_all patterns self) = session_id self
  /\ _agent_type (subscribe_all patterns self) = _agent_type self
  /\ interval (subscribe_all patterns self) = interval self
  /\ _is_running (subscribe_all patterns self) = _is_running self.
Proof.
  unfold subscribe_all. revert self.
  induction patterns as [|p ps IH]; intros self; simpl; [done|].
  destruct (IH (subscribe_to p self)) as (-> & -> & -> & ->). done.
Qed.

Lemma BackgroundAgent_eq (a b : BackgroundAgent) :
  session_id a = session_id b ->
  _agent_type a = _agent_type b ->
  interval a = interval b ->
  subscribed_messages a = subscribed_messages b ->
  _is_running a = _is_running b ->
  a = b.
Proof. destruct a, b; simpl; congruence. Qed.

(** C6.  The subscriptions of an agent form a set: after any run of
    [subscribe_to] calls on a new agent they are the set of the patterns
    passed; subscribing to a pattern already present changes nothing; and
    two runs that pass the same patterns in another order leave the same
    agent. *)
Theorem subscriptions_form_a_set :
  (forall sid ty iv (patterns : list string),
     subscribed_messages
       (subscribe_all patterns (BackgroundAgent_init sid ty iv))
     = list_to_set patterns)
  /\ (forall (self : BackgroundAgent) (patterns : list string) (p : string),
        p ∈ subscribed_messages (subscribe_all patterns self)
        <-> p ∈ patterns \/ p ∈ subscribed_messages self)
  /\ (forall (self : BackgroundAgent) (p : string),
        p ∈ subscribed_messages self -> subscribe_to p self = self)
  /\ (forall (self : BackgroundAgent) (p : string),
        subscribe_to p (subscribe_to p self) = subscribe_to p self)
  /\ (forall (self : BackgroundAgent) (ps qs : list string),
        ps ≡ₚ qs -> subscribe_all ps self = subscribe_all qs self).
Proof.
  split; [|split; [|split; [|split]]].
  - intros sid ty iv patterns. rewrite subscribe_all_subscribed. simpl.
    apply union_empty_r_L.
  - intros self patterns p. rewrite subscribe_all_subscribed.
    rewrite elem_of_union, elem_of_list_to_set. reflexivity.
  - intros self p Hp. destruct self. unfold subscribe_to. simpl in *. f_equal.
    apply subseteq_union_1_L. by apply singleton_subseteq_l.
  - intros self p. unfold subscribe_to. simpl. f_equal.
    rewrite (assoc_L (∪)). by rewrite (idemp_L (∪)).
  - intros self ps qs Hperm.
    destruct (subscribe_all_frame ps self) as (? & ? & ? & ?).
    destruct (subscribe_all_frame qs self) as (? & ? & ? & ?).
    apply BackgroundAgent_eq; try congruence.
    rewrite !subscribe_all_subscribed. f_equal.
    apply set_eq. intros x. rewrite !elem_of_list_to_set. by rewrite Hperm.
Qed.

(** ** The notification agent's periodic hook *)

(** C7.  [NotificationAgent] is built with no interval, and its periodic
    hook returns at once, logs nothing and leaves the agent, every field
    of it, as it was. *)
Theorem notification_process_is_inert :
  (forall sid, interval (NotificationAgent.base (NotificationAgent.init sid).1) = None)
  /\ (forall self : NotificationAgent.t,
        NotificationAgent.process self = (Returned tt, self, [])).
Proof. split; reflexivity. Qed.

(** ** The system monitor's message hook *)

Lemma handle_user_action_run message self :
  SystemMonitorAgent._handle_user_action message self
  = (Returned tt, after_user_action message self,
     [user_action_record (replace (message_type message) "user.action." "")]).
Proof.
  unfold after_user_action, SystemMonitorAgent._handle_user_action.
  cbv zeta. rewrite bind_logger, bind_get_self.
  destruct (String.eqb _ "login"); [reflexivity|].
  destruct (String.eqb _ "logout"); reflexivity.
Qed.

Lemma after_user_action_active_users message self :
  active_users_of (after_user_action message self)
  = let action_type := replace (message_type message) "user.action." "" in
    if String.eqb action_type "login" then (active_users_of self + 1)%Z
    else if String.eqb action_type "logout"
         then Z.max 0 (active_users_of self - 1)
         else active_users_of self.
Proof.
  unfold after_user_action, SystemMonitorAgent._handle_user_action.
  cbv zeta. rewrite bind_logger, bind_get_self.
  destruct (String.eqb _ "login"); [reflexivity|].
  destruct (String.eqb _ "logout"); reflexivity.
Qed.

Lemma handle_status_request_run message self :
  exists r1 r2,
    SystemMonitorAgent._handle_status_request message self
    = (Returned tt, self, [LogRecord INFO r1; LogRecord INFO r2])
    /\ (forall s, LogRecord INFO r1 <> user_action_record s)
    /\ (forall s, LogRecord INFO r2 <> user_action_record s).
Proof.
  unfold SystemMonitorAgent._handle_status_request.
  rewrite bind_logger, bind_get_self.
  do 2 eexists. split; [reflexivity|]. split; intros s; discriminate.
Qed.

Lemma handle_resource_request_run message self :
  exists r,
    SystemMonitorAgent._handle_resource_request message self
    = (Returned tt, self, [LogRecord INFO r])
    /\ forall s, LogRecord INFO r <> user_action_record s.
Proof.
  unfold SystemMonitorAgent._handle_resource_request.
  assert (exists rt,
             (if truthy (data_value message)
              then lift (data_get message "resource_type" VNone)
              else ret VNone) = @ret SystemMonitorAgent.t _ rt) as [rt ->].
  { unfold data_value, data_get.
    destruct (data message) as [d|]; simpl; [|eauto].
    destruct d; simpl; [eauto|]. case_match; eauto. }
  rewrite bind_ret, bind_get_self.
  repeat case_match; eexists; (split; [reflexivity|]); intros s; discriminate.
Qed.

Lemma monitor_hook_user_action message self :
  startswith (message_type message) "user.action." = true ->
  SystemMonitorAgent.process_message message self
  = (Returned tt, after_user_action message self,
     [LogRecord INFO [Lit "Processing message: ";
                      Fmt (VStr (message_type message))];
      user_action_record (replace (message_type message) "user.action." "")]).
Proof.
  intros Hp. unfold SystemMonitorAgent.process_message, try_except.
  rewrite bind_logger.
  destruct (String.eqb_spec (message_type message) "system.status.request")
    as [E|_]; [rewrite E in Hp; discriminate Hp|].
  destruct (String.eqb_spec (message_type message) "system.resource.request")
    as [E|_]; [rewrite E in Hp; discriminate Hp|].
  rewrite Hp, handle_user_action_run. reflexivity.
Qed.

Lemma monitor_hook_other message self :
  startswith (message_type message) "user.action." = false ->
  state_of (SystemMonitorAgent.process_message message self) = self
  /\ forall s,
       user_action_record s
       ∉ log_of (SystemMonitorAgent.process_message message self).
Proof.
  intros Hp. unfold SystemMonitorAgent.process_message, try_except.
  rewrite bind_logger, Hp.
  destruct (String.eqb (message_type message) "system.status.request").
  - destruct (handle_status_request_run message self)
      as (r1 & r2 & -> & H1 & H2). simpl. split; [reflexivity|].
    intros s Hin. unfold log_of in Hin. simpl in Hin.
    rewrite !elem_of_cons in Hin.
    destruct Hin as [Hin|[Hin|[Hin|Hin]]];
      [discriminate Hin|by eapply H1|by eapply H2|by apply elem_of_nil in Hin].
  - destruct (String.eqb (message_type message) "system.resource.request").
    + destruct (handle_resource_request_run message self) as (r & -> & H1).
      simpl. split; [reflexivity|].
      intros s Hin. unfold log_of in Hin. simpl in Hin.
      rewrite !elem_of_cons in Hin.
      destruct Hin as [Hin|[Hin|Hin]];
        [discriminate Hin|by eapply H1|by apply elem_of_nil in Hin].
    + simpl. split; [reflexivity|].
      intros s Hin. unfold log_of in Hin. simpl in Hin.
      rewrite elem_of_cons in Hin.
      destruct Hin as [Hin|Hin];
        [discriminate Hin|by apply elem_of_nil in Hin].
Qed.

(** C2.  The hook takes its user-action branch exactly on the message
    types that start with ["user.action."]: so it does on
    ["user.action.login"] and ["user.action.logout"], and does not on the
    bare ["user.action"] nor on ["user.actionx.foo"]. *)
Theorem user_action_branch_iff_prefix :
  (forall message self,
     takes_user_action_branch message self
     <-> startswith (message_type message) "user.action." = true)
  /\ (forall d ts sd self,
        takes_user_action_branch
          {| message_type := "user.action.login";
             data := d; timestamp := ts; sender := sd |} self
        /\ takes_user_action_branch
             {| message_type := "user.action.logout";
                data := d; timestamp := ts; sender := sd |} self
        /\ ~ takes_user_action_branch
               {| message_type := "user.action";
                  data := d; timestamp := ts; sender := sd |} self
        /\ ~ takes_user_action_branch
               {| message_type := "user.actionx.foo";
                  data := d; timestamp := ts; sender := sd |} self).
Proof.
  assert (forall message self,
             takes_user_action_branch message self
             <-> startswith (message_type message) "user.action." = true)
    as Hiff.
  { intros message self. unfold takes_user_action_branch. split.
    - intros [s Hin].
      destruct (startswith (message_type message) "user.action.") eqn:Hp;
        [reflexivity|].
      destruct (monitor_hook_other message self Hp) as [_ Hnot].
      by destruct (Hnot s).
    - intros Hp. rewrite (monitor_hook_user_action message self Hp).
      eexists. unfold log_of. simpl. apply elem_of_cons. right.
      apply elem_of_cons. left. reflexivity. }
  split; [exact Hiff|].
  intros d ts sd self. rewrite !Hiff. simpl.
  repeat split; try reflexivity; discriminate.
Qed.

(** C8.  The message hook keeps the count of active users non-negative;
    on ["user.action.logout"] the count goes down by one and stops at
    zero. *)
Theorem active_users_never_negative
    (message : BackgroundMessage) (self : SystemMonitorAgent.t) :
  (0 <= active_users_of self)%Z ->
  (0 <= active_users_of
          (state_of (SystemMonitorAgent.process_message message self)))%Z
  /\ (message_type message = "user.action.logout" ->
      active_users_of
        (state_of (SystemMonitorAgent.process_message message self))
      = Z.max 0 (active_users_of self - 1)).
Proof.
  intros Hge. split.
  - destruct (startswith (message_type message) "user.action.") eqn:Hp.
    + rewrite (monitor_hook_user_action message self Hp).
      unfold state_of. simpl. rewrite after_user_action_active_users.
      cbv zeta. repeat case_match; lia.
    + destruct (monitor_hook_other message self Hp) as [-> _]. exact Hge.
  - intros Hmt.
    rewrite (monitor_hook_user_action message self) by (by rewrite Hmt).
    unfold state_of. simpl. rewrite after_user_action_active_users.
    rewrite Hmt. reflexivity.
Qed.

Lemma active_users_never_negative_witness :
  (0 <= active_users_of new_monitor)%Z
  /\ (0 <= active_users_of
             (state_of (SystemMonitorAgent.process_message
                          logout_message new_monitor)))%Z
  /\ active_users_of
       (state_of (SystemMonitorAgent.process_message
                    logout_message new_monitor))
     = 0%Z.
Proof.
  assert (0 <= active_users_of new_monitor)%Z as H0 by (vm_compute; discriminate).
  split; [exact H0|].
  destruct (active_users_never_negative logout_message new_monitor H0)
    as [Hge Hout].
  split; [exact Hge|]. rewrite Hout; reflexivity.
Defined.

(** ** Python equality on dictionary keys *)

Lemma num_eqb_sym x y : num_eqb x y = num_eqb y x.
Proof.
  destruct x as [p|s|], y as [q|t|]; simpl; try reflexivity.
  - apply eq_true_iff_eq. rewrite !Qeq_bool_iff. split; apply Qeq_sym.
  - by destruct s, t.
Qed.

Lemma num_eqb_trans x y z :
  num_eqb x y = true -> num_eqb y z = true -> num_eqb x z = true.
Proof.
  destruct x as [p|s|], y as [q|t|], z as [r|u|]; simpl; try discriminate.
  - rewrite !Qeq_bool_iff. apply Qeq_trans.
  - by destruct s, t, u.
Qed.


Lemma py_eq_num a b x y :
  as_num a = Some x -> as_num b = Some y -> py_eq a b = num_eqb x y.
Proof.
  intros Ha Hb. destruct a; try discriminate; simpl in *; rewrite Hb;
    by injection Ha as <-.
Qed.

Lemma py_eq_num_inv a b x :
  as_num a = Some x -> py_eq a b = true ->
  exists y, as_num b = Some y /\ num_eqb x y = true.
Proof.
  intros Ha H. destruct a; try discriminate; simpl in *;
    injection Ha as <-; destruct (as_num b) as [y|]; try discriminate; eauto.
Qed.

Lemma py_eq_hashable_l k u :
  hashable u = true -> py_eq k u = true -> hashable k = true.
Proof. destruct k; try reflexivity; destruct u; simpl; discriminate. Qed.

Lemma hashable_cases k :
  hashable k = true ->
  k = VNone \/ (exists s, k = VStr s) \/ (exists n, as_num k = Some n).
Proof. destruct k; try discriminate; simpl; eauto. Qed.

Lemma py_eq_scalar_trans k0 k u :
  hashable u = true ->
  py_eq k0 u = true -> py_eq k0 k = true -> py_eq k u = true.
Proof.
  intros Hu H1 H2.
  destruct (hashable_cases k0 (py_eq_hashable_l _ _ Hu H1))
    as [->|[[s ->]|[x Ex]]].
  - destruct u; try discriminate H1. destruct k; try discriminate H2.
    reflexivity.
  - destruct u as [| | | |t| |]; try discriminate H1.
    destruct k as [| | | |t'| |]; try discriminate H2.
    simpl in *. apply String.eqb_eq in H1, H2. subst. apply String.eqb_refl.
  - destruct (py_eq_num_inv _ _ _ Ex H1) as (y & Ey & Hy).
    destruct (py_eq_num_inv _ _ _ Ex H2) as (z & Ez & Hz).
    rewrite (py_eq_num _ _ _ _ Ez Ey).
    eapply num_eqb_trans; [|exact Hy]. by rewrite num_eqb_sym.
Qed.





Lemma py_eq_sym_scalar k u : hashable u = true -> py_eq k u = py_eq u k.
Proof.
  intros Hu. destruct (hashable_cases u Hu) as [->|[[s ->]|[y Ey]]].
  - by destruct k.
  - destruct k; try reflexivity. simpl. apply String.eqb_sym.
  - destruct (as_num k) as [x|] eqn:Ex.
    + rewrite (py_eq_num _ _ _ _ Ex Ey), (py_eq_num _ _ _ _ Ey Ex).
      apply num_eqb_sym.
    + destruct k; try discriminate Ex; destruct u; try discriminate Ey;
        reflexivity.
Qed.

Section PyDictFacts.
Context {V : Type}.
Implicit Types (d : pydict V) (k u : value) (f : V -> V).

Lemma pd_find_mutate_eq u f d :
  pd_find u (pd_mutate u f d) = f <$> pd_find u d.
Proof.
  induction d as [|[k' v] r IH]; simpl; [reflexivity|].
  destruct (py_eq k' u) eqn:E; simpl; rewrite E; [reflexivity|exact IH].
Qed.

Lemma pd_find_mutate_ne k u f d :
  hashable u = true -> py_eq k u = false ->
  pd_find k (pd_mutate u f d) = pd_find k d.
Proof.
  intros Hu Hne. induction d as [|[k' v] r IH]; simpl; [reflexivity|].
  destruct (py_eq k' u) eqn:E; simpl.
  - destruct (py_eq k' k) eqn:E'; [|reflexivity].
    rewrite (py_eq_scalar_trans _ _ _ Hu E E') in Hne. discriminate.
  - destruct (py_eq k' k); [reflexivity|exact IH].
Qed.

Lemma pd_mutate_keys u f d : (pd_mutate u f d).*1 = d.*1.
Proof.
  induction d as [|[k' v] r IH]; simpl; [reflexivity|].
  destruct (py_eq k' u); simpl; [reflexivity|f_equal; exact IH].
Qed.

Lemma pd_mutate_id u f d :
  (forall v, pd_find u d = Some v -> f v = v) -> pd_mutate u f d = d.
Proof.
  induction d as [|[k' v] r IH]; simpl; [reflexivity|].
  destruct (py_eq k' u); intros Hf.
  - by rewrite Hf.
  - by rewrite IH.
Qed.

Lemma pd_find_store_eq u v d :
  py_eq u u = true -> pd_find u (pd_store u v d) = Some v.
Proof.
  intros Hr. induction d as [|[k' v'] r IH]; simpl; [by rewrite Hr|].
  destruct (py_eq k' u) eqn:E; simpl; rewrite E; [reflexivity|exact IH].
Qed.

Lemma pd_store_keys_Forall (P : value -> Prop) u v d :
  P u -> Forall P d.*1 -> Forall P (pd_store u v d).*1.
Proof.
  intros Hu. induction d as [|[k' v'] r IH]; simpl; intros Hd.
  - by constructor.
  - apply Forall_cons in Hd as [Hk Hr].
    destruct (py_eq k' u); simpl; constructor; auto.
Qed.


End PyDictFacts.

(** ** The notification agent's message hook *)

Section NotificationFacts.
Import NotificationAgent.

Lemma data_get_payload message k dflt :
  truthy (data_value message) = true ->
  data_get message k dflt = inr (payload message k dflt).
Proof.
  unfold data_value, data_get, payload.
  destruct (data message) as [d|]; [|discriminate]. intros _.
  by destruct (dict_get d k).
Qed.

Lemma state_of_try_except_log {S} (body : M S unit) lv (text : exn -> list frag) s :
  state_of (try_except body (fun e => logger lv (text e)) s) = state_of (body s).
Proof.
  unfold try_except. destruct (body s) as [[[[]|e] s'] l]; [reflexivity|].
  by destruct (is_Exception e).
Qed.

Lemma state_of_bind_logger {S B} lv text (k : unit -> M S B) s :
  state_of (bind (logger lv text) k s) = state_of (k tt s).
Proof. by rewrite bind_logger. Qed.


Lemma state_of_bind_returned {S A B} (m : M S A) (k : A -> M S B) s a s' l :
  m s = (Returned a, s', l) -> state_of (bind m k s) = state_of (k a s').
Proof. intros H. rewrite bind_run, H. reflexivity. Qed.

Lemma state_of_bind_raised {S A B} (m : M S A) (k : A -> M S B) s e s' l :
  m s = (Raised e, s', l) -> state_of (bind m k s) = s'.
Proof. intros H. rewrite bind_run, H. reflexivity. Qed.

Ltac hook_state Hd :=
  repeat first
    [ rewrite (data_get_payload _ _ _ Hd)
    | erewrite state_of_bind_returned by (simpl; reflexivity)
    | erewrite state_of_bind_raised by (simpl; reflexivity) ].

Lemma with_notifications_id self :
  with_notifications (_notifications self) self = self.
Proof. by destruct self. Qed.

Lemma dismiss_notification_state message self :
  let u := payload message "user_id" VNone in
  let i := payload message "notification_id" VNone in
  state_of (_dismiss_notification message self)
  = if dismissal_applies message
    then with_notifications
           (pd_mutate u (fun l => (dismiss_loop i l).1) (_notifications self))
           self
    else self.
Proof.
  intros u i. unfold _dismiss_notification, dismissal_applies.
  destruct (truthy (data_value message)) eqn:Hd; simpl; [|done].
  hook_state Hd. fold u i.
  destruct (truthy u); simpl; [|done].
  destruct (truthy i); simpl; [|done].
  hook_state Hd. unfold pd_contains, pd_getitem.
  destruct (hashable u) eqn:Hh; simpl; [|done].
  hook_state Hd.
  destruct (pd_find u (_notifications self)) as [l|] eqn:Hf.
  - rewrite bool_decide_eq_true_2 by eauto.
    hook_state Hd. by destruct (dismiss_loop i l).2.
  - rewrite bool_decide_eq_false_2 by (intros [? ?]; discriminate).
    simpl. rewrite pd_mutate_id; [by rewrite with_notifications_id|].
    intros v. rewrite Hf. discriminate.
Qed.

Lemma dismiss_loop_spec i l :
  ((forall n, n ∈ l -> py_eq (notif_id n) i = false)
   /\ (dismiss_loop i l).1 = l)
  \/ (exists j n,
        l !! j = Some n
        /\ py_eq (notif_id n) i = true
        /\ (forall j' n', j' < j -> l !! j' = Some n' ->
                          py_eq (notif_id n') i = false)
        /\ (dismiss_loop i l).1 = <[j := set_dismissed n]> l).
Proof.
  induction l as [|n r IH]; simpl.
  - left. split; [|reflexivity]. intros n Hn. by apply elem_of_nil in Hn.
  - destruct (py_eq (notif_id n) i) eqn:E.
    + right. exists 0, n. simpl. repeat split; try done. intros j' n' Hj. lia.
    + destruct (dismiss_loop i r) as [r' found]. simpl in *.
      destruct IH as [[Hall ->]|(j & m & Hj & Hm & Hbefore & ->)].
      * left. split; [|reflexivity]. intros n' Hn'.
        apply elem_of_cons in Hn' as [->|Hn']; auto.
      * right. exists (S j), m. simpl. repeat split; try done.
        intros [|j'] n' Hlt Hl; simpl in Hl.
        -- by injection Hl as <-.
        -- apply (Hbefore j'); [lia|done].
Qed.

Lemma pd_mutate_ext {V} u (f g : V -> V) (d : pydict V) :
  (forall v, pd_find u d = Some v -> f v = g v) ->
  pd_mutate u f d = pd_mutate u g d.
Proof.
  induction d as [|[k' v] r IH]; simpl; [reflexivity|].
  destruct (py_eq k' u); intros Hf.
  - by rewrite Hf.
  - by rewrite IH.
Qed.

Lemma set_read_idemp n : set_read (set_read n) = set_read n.
Proof. reflexivity. Qed.

Lemma mark_read_cons i refs l :
  mark_read (i :: refs) l = mark_read refs (alter set_read i l).
Proof. reflexivity. Qed.

Lemma mark_read_lookup_notin refs l j :
  j ∉ refs -> mark_read refs l !! j = l !! j.
Proof.
  revert l. induction refs as [|i refs IH]; intros l Hj; [done|].
  apply not_elem_of_cons in Hj as [Hne Hj].
  rewrite mark_read_cons, IH by done. by apply list_lookup_alter_ne.
Qed.

Lemma mark_read_lookup_in refs l j :
  j ∈ refs -> mark_read refs l !! j = set_read <$> l !! j.
Proof.
  revert l. induction refs as [|i refs IH]; intros l Hj.
  - by apply elem_of_nil in Hj.
  - rewrite mark_read_cons. destruct (decide (j ∈ refs)) as [Hin|Hnin].
    + rewrite IH by done. destruct (decide (i = j)) as [->|Hne].
      * rewrite list_lookup_alter_eq. by destruct (l !! j).
      * by rewrite list_lookup_alter_ne.
    + apply elem_of_cons in Hj as [->|Hj]; [|done].
      rewrite mark_read_lookup_notin by done. apply list_lookup_alter_eq.
Qed.

Lemma elem_of_live_refs l j :
  j ∈ live_refs l (seq 0 (length l))
  <-> exists n, l !! j = Some n /\ notif_dismissed n = false.
Proof.
  unfold live_refs. rewrite list_elem_of_In, filter_In, in_seq. split.
  - intros [_ H]. destruct (l !! j) as [n|]; [|discriminate].
    exists n. split; [done|]. by apply negb_true_iff.
  - intros (n & Hn & Hd). split.
    + apply lookup_lt_Some in Hn. lia.
    + rewrite Hn. by rewrite Hd.
Qed.

Lemma mark_read_selected inc l j n :
  l !! j = Some n ->
  mark_read (if negb (truthy inc) then live_refs l (seq 0 (length l))
             else seq 0 (length l)) l !! j
  = Some (if listed inc n then set_read n else n).
Proof.
  intros Hn. unfold listed.
  destruct (truthy inc); simpl.
  - rewrite mark_read_lookup_in, Hn; [done|].
    apply list_elem_of_In, in_seq. apply lookup_lt_Some in Hn. lia.
  - destruct (notif_dismissed n) eqn:Hd; simpl.
    + rewrite mark_read_lookup_notin; [done|].
      rewrite elem_of_live_refs. intros (n' & Hn' & Hd'). congruence.
    + rewrite mark_read_lookup_in, Hn; [done|].
      rewrite elem_of_live_refs. eauto.
Qed.

Lemma length_mark_read refs l : length (mark_read refs l) = length l.
Proof.
  unfold mark_read. revert l. induction refs as [|i refs IH]; intros l; simpl;
    [done|]. by rewrite IH, length_alter.
Qed.

Lemma list_notifications_state message self :
  let u := payload message "user_id" VNone in
  let inc := payload message "include_dismissed" (VBool false) in
  state_of (_list_notifications message self)
  = if listing_applies message
    then with_notifications
           (pd_mutate u (fun l => mark_read (selected inc l) l)
              (_notifications self))
           self
    else self.
Proof.
  intros u inc. unfold _list_notifications, listing_applies.
  destruct (truthy (data_value message)) eqn:Hd; simpl; [|done].
  hook_state Hd. fold u inc.
  destruct (truthy u); simpl; [|done].
  hook_state Hd. unfold pd_get.
  destruct (hashable u) eqn:Hh; simpl; [|done].
  assert (exists stored,
             match pd_find u (_notifications self) with
             | Some v => inr v
             | None => inr []
             end = @inr exn _ stored
             /\ forall v, pd_find u (_notifications self) = Some v -> v = stored)
    as (stored & -> & Hst).
  { destruct (pd_find u (_notifications self)) as [v|]; eexists;
      (split; [reflexivity|]); [by intros ? [= <-]|discriminate]. }
  hook_state Hd. unfold state_of, logger, with_notifications. simpl. f_equal.
  apply pd_mutate_ext. intros v Hv. by rewrite (Hst v Hv).
Qed.

Lemma create_notification_state loop_time message self :
  let u := payload message "user_id" VNone in
  state_of (_create_notification loop_time message self)
  = if creation_applies message
    then with_notifications
           match pd_find u (_notifications self) with
           | Some l =>
               pd_mutate u
                 (fun l' => l' ++ [created_notification loop_time message l])
                 (_notifications self)
           | None =>
               pd_store u [created_notification loop_time message []]
                 (_notifications self)
           end self
    else self.
Proof.
  intros u. unfold _create_notification, creation_applies.
  destruct (truthy (data_value message)) eqn:Hd; simpl; [|done].
  hook_state Hd. fold u.
  destruct (truthy u); simpl; [|done].
  hook_state Hd. unfold pd_get, pd_contains, pd_getitem, pd_setitem.
  destruct (hashable u) eqn:Hh; simpl; [|done].
  destruct (pd_find u (_notifications self)) as [l|] eqn:Hf.
  - rewrite bool_decide_eq_true_2 by eauto. simpl.
    hook_state Hd. simpl.
    destruct (pd_find u (_user_sessions self)) as [[]|]; reflexivity.
  - rewrite bool_decide_eq_false_2 by (intros [? ?]; discriminate). simpl.
    hook_state Hd. simpl.
    destruct (pd_find u (_user_sessions self)) as [[]|]; reflexivity.
Qed.

Lemma handle_session_start_notifications message self :
  _notifications (state_of (_handle_session_start message self))
  = _notifications self.
Proof.
  unfold _handle_session_start.
  destruct (truthy (data_value message)) eqn:Hd; simpl; [|done].
  hook_state Hd.
  destruct (truthy (payload message "user_id" VNone)); simpl; [|done].
  hook_state Hd. unfold pd_setitem, pd_get.
  destruct (hashable (payload message "user_id" VNone)); simpl; [|done].
  hook_state Hd. simpl.
  match goal with |- context [pd_find ?k ?d] => destruct (pd_find k d) end;
    simpl; hook_state Hd; repeat case_match; reflexivity.
Qed.

Lemma handle_session_end_notifications message self :
  _notifications (state_of (_handle_session_end message self))
  = _notifications self.
Proof.
  unfold _handle_session_end.
  destruct (truthy (data_value message)) eqn:Hd; simpl; [|done].
  hook_state Hd.
  destruct (truthy (payload message "user_id" VNone)); simpl; [|done].
  hook_state Hd. unfold pd_setitem.
  destruct (hashable (payload message "user_id" VNone)); simpl; [|done].
  by hook_state Hd.
Qed.

(** The hook leaves the agent as the handler it picks does. *)
Lemma notifier_hook_state loop_time message self :
  state_of (process_message loop_time message self)
  = if String.eqb (message_type message) "notification.create" then
      state_of (_create_notification loop_time message self)
    else if String.eqb (message_type message) "notification.dismiss" then
      state_of (_dismiss_notification message self)
    else if String.eqb (message_type message) "notification.list" then
      state_of (_list_notifications message self)
    else if String.eqb (message_type message) "user.session.start" then
      state_of (_handle_session_start message self)
    else if String.eqb (message_type message) "user.session.end" then
      state_of (_handle_session_end message self)
    else self.
Proof.
  unfold process_message.
  rewrite state_of_try_except_log, state_of_bind_logger.
  repeat case_match; reflexivity.
Qed.




Lemma payload_truthy_data message k :
  truthy (payload message k VNone) = true -> truthy (data_value message) = true.
Proof.
  unfold payload, data_value. destruct (data message) as [[|e d]|]; simpl; done.
Qed.

(** C5.  A ["notification.create"] message whose payload is absent, or
    present without a ["user_id"] key, leaves the agent as it was: the
    store [_notifications] is unchanged, no notification is created and no
    user entry is added. *)
Theorem malformed_create_leaves_store
    (loop_time : spec_float) (message : BackgroundMessage) (self : t) :
  message_type message = "notification.create" ->
  (data message = None
   \/ exists d, data message = Some d /\ dict_get d "user_id" = None) ->
  state_of (process_message loop_time message self) = self
  /\ _notifications (state_of (process_message loop_time message self))
     = _notifications self
  /\ _notifications (state_of (_create_notification loop_time message self))
     = _notifications self.
Proof.
  intros Hmt Hdata.
  assert (creation_applies message = false) as Hno.
  { unfold creation_applies, data_value, payload.
    destruct Hdata as [->|(d & -> & ->)]; [reflexivity|].
    simpl. by rewrite andb_false_r. }
  assert (state_of (_create_notification loop_time message self) = self) as Hc.
  { rewrite create_notification_state. cbv zeta. by rewrite Hno. }
  rewrite notifier_hook_state, Hmt. simpl. by rewrite Hc.
Qed.

Lemma malformed_create_leaves_store_witness :
  message_type create_without_user = "notification.create"
  /\ _notifications
       (state_of (process_message (S754_zero false) create_without_user
                    sample_agent))
     = [].
Proof.
  split; [reflexivity|].
  destruct (malformed_create_leaves_store (S754_zero false)
              create_without_user sample_agent) as (_ & -> & _);
    [reflexivity|right; eexists; split; reflexivity|reflexivity].
Defined.





Lemma reachable_two_notifications : reachable two_notifications.
Proof. do 2 apply reachable_message. apply reachable_init. Qed.


End NotificationFacts.

(** * Further properties *)

(** ** Dictionaries *)

Section PyDictMoreFacts.
Context {V : Type}.
Implicit Types (d : pydict V) (k u : value) (f g : V -> V).

Lemma pd_find_store_ne k u v d :
  hashable u = true -> py_eq k u = false ->
  pd_find k (pd_store u v d) = pd_find k d.
Proof.
  intros Hu Hne. induction d as [|[k' v'] r IH]; simpl.
  - by rewrite <- (py_eq_sym_scalar k u Hu), Hne.
  - destruct (py_eq k' u) eqn:E; simpl.
    + destruct (py_eq k' k) eqn:E'; [|reflexivity].
      rewrite (py_eq_scalar_trans _ _ _ Hu E E') in Hne. discriminate.
    + destruct (py_eq k' k); [reflexivity|exact IH].
Qed.

Lemma pd_store_fresh u v d :
  pd_find u d = None -> pd_store u v d = d ++ [(u, v)].
Proof.
  induction d as [|[k' v'] r IH]; simpl; [reflexivity|].
  destruct (py_eq k' u); [discriminate|]. intros H. by rewrite IH.
Qed.

Lemma pd_mutate_mutate u f g d :
  pd_mutate u f (pd_mutate u g d) = pd_mutate u (fun v => f (g v)) d.
Proof.
  induction d as [|[k' v'] r IH]; simpl; [reflexivity|].
  destruct (py_eq k' u) eqn:E; simpl; rewrite E; [reflexivity|by rewrite IH].
Qed.

Lemma pd_mutate_lookup u f d i k v :
  d !! i = Some (k, v) ->
  pd_mutate u f d !! i = Some (k, v) \/ pd_mutate u f d !! i = Some (k, f v).
Proof.
  revert i. induction d as [|[k' v'] r IH]; intros [|i]; simpl; try discriminate.
  - intros [= -> ->]. destruct (py_eq k u); simpl; auto.
  - intros H. destruct (py_eq k' u); simpl; auto.
Qed.

Lemma pd_store_keys_fresh u v d :
  pd_find u d = None -> (pd_store u v d).*1 = d.*1 ++ [u].
Proof. intros H. rewrite pd_store_fresh by done. by rewrite fmap_app. Qed.

End PyDictMoreFacts.

(** ** More on the notification agent *)

Section NotificationMoreFacts.
Import NotificationAgent.

Ltac run_hook Hd :=
  repeat first
    [ rewrite (data_get_payload _ _ _ Hd)
    | erewrite state_of_bind_returned by (simpl; reflexivity)
    | erewrite state_of_bind_raised by (simpl; reflexivity) ].

Lemma with_user_sessions_id self :
  with_user_sessions (_user_sessions self) self = self.
Proof. by destruct self. Qed.

Lemma handle_session_start_state message self :
  state_of (_handle_session_start message self)
  = if creation_applies message
    then with_user_sessions
           (pd_store (payload message "user_id" VNone) true
              (_user_sessions self)) self
    else self.
Proof.
  unfold _handle_session_start, creation_applies.
  destruct (truthy (data_value message)) eqn:Hd; simpl; [|done].
  run_hook Hd.
  destruct (truthy (payload message "user_id" VNone)); simpl; [|done].
  run_hook Hd. unfold pd_setitem, pd_get.
  destruct (hashable (payload message "user_id" VNone)); simpl; [|done].
  run_hook Hd. simpl.
  match goal with |- context [pd_find ?k ?d] => destruct (pd_find k d) end;
    simpl; run_hook Hd; repeat case_match; reflexivity.
Qed.

Lemma handle_session_end_state message self :
  state_of (_handle_session_end message self)
  = if creation_applies message
    then with_user_sessions
           (pd_store (payload message "user_id" VNone) false
              (_user_sessions self)) self
    else self.
Proof.
  unfold _handle_session_end, creation_applies.
  destruct (truthy (data_value message)) eqn:Hd; simpl; [|done].
  run_hook Hd.
  destruct (truthy (payload message "user_id" VNone)); simpl; [|done].
  run_hook Hd. unfold pd_setitem.
  destruct (hashable (payload message "user_id" VNone)); simpl; [|done].
  by run_hook Hd.
Qed.

Lemma applies_of_user_id message :
  truthy (payload message "user_id" VNone) = true ->
  hashable (payload message "user_id" VNone) = true ->
  creation_applies message = true.
Proof.
  intros Hu Hh. unfold creation_applies.
  by rewrite (payload_truthy_data message "user_id" Hu), Hu, Hh.
Qed.

(** X1.  A ["user.session.start"] message with a usable [user_id] sets
    that user's flag in the session table to [True], a ["user.session.end"]
    message sets it to [False]; the flags of the other users, the store of
    notifications and the base agent are as before. *)
Theorem session_hooks_set_the_flag
    (loop_time : spec_float) (message : BackgroundMessage) (self : t)
    (active : bool) :
  message_type message
  = (if active then "user.session.start" else "user.session.end") ->
  let u := payload message "user_id" VNone in
  truthy u = true -> hashable u = true -> py_eq u u = true ->
  let self' := state_of (process_message loop_time message self) in
  pd_find u (_user_sessions self') = Some active
  /\ (forall k, py_eq k u = false ->
                pd_find k (_user_sessions self') = pd_find k (_user_sessions self))
  /\ _notifications self' = _notifications self
  /\ base self' = base self.
Proof.
  intros Hmt u Hu Hh Hrefl self'.
  assert (self' = with_user_sessions
                    (pd_store u active (_user_sessions self)) self) as ->.
  { unfold self'. rewrite notifier_hook_state, Hmt.
    destruct active; simpl.
    - by rewrite handle_session_start_state, applies_of_user_id.
    - by rewrite handle_session_end_state, applies_of_user_id. }
  simpl. split; [by apply pd_find_store_eq|].
  split; [|done]. intros k Hk. by apply pd_find_store_ne.
Qed.

Lemma session_hooks_set_the_flag_witness :
  pd_find (VStr "user123")
    (_user_sessions
       (state_of (process_message (S754_zero false) session_start_user123
                    sample_agent)))
  = Some true.
Proof.
  apply (session_hooks_set_the_flag (S754_zero false) session_start_user123
           sample_agent true); reflexivity.
Defined.

(** X2.  A message of any type whose payload is missing or empty, or
    whose [user_id] is missing, falsy or cannot be hashed, leaves the whole
    agent as it was: store, session table and base agent. *)
Theorem unusable_user_id_changes_nothing
    (loop_time : spec_float) (message : BackgroundMessage) (self : t) :
  let u := payload message "user_id" VNone in
  truthy (data_value message) = false
  \/ truthy u = false
  \/ hashable u = false ->
  state_of (process_message loop_time message self) = self.
Proof.
  intros u Hbad.
  assert (creation_applies message = false) as Hc.
  { unfold creation_applies. fold u.
    destruct Hbad as [H|[H|H]]; rewrite H; by rewrite ?andb_false_r. }
  assert (dismissal_applies message = false) as Hd.
  { unfold dismissal_applies. fold u.
    destruct Hbad as [H|[H|H]]; rewrite H; by rewrite ?andb_false_r. }
  rewrite notifier_hook_state.
  repeat case_match; try reflexivity.
  - rewrite create_notification_state. cbv zeta. by rewrite Hc.
  - rewrite dismiss_notification_state. cbv zeta. by rewrite Hd.
  - rewrite list_notifications_state. cbv zeta.
    unfold listing_applies. unfold creation_applies in Hc. by rewrite Hc.
  - by rewrite handle_session_start_state, Hc.
  - by rewrite handle_session_end_state, Hc.
Qed.

Lemma unusable_user_id_changes_nothing_witness :
  state_of (process_message (S754_zero false) create_for_a_list
              two_notifications)
  = two_notifications.
Proof.
  apply unusable_user_id_changes_nothing. right. right. reflexivity.
Defined.

(** X3.  A ["notification.create"] message with a usable [user_id]
    appends exactly one notification to the end of that user's list (a new
    list for a user without one).  The new notification is unread and not
    dismissed, and each of its other fields is the payload's, or the
    default where the payload has none: the id ["notif_N"] with [N] the
    number of notifications the user had, the title ["Notification"], the
    empty message, the type ["info"] and the reading of the loop clock.
    The lists of the other users, the session table and the base agent
    are as before. *)
Theorem create_appends_one
    (loop_time : spec_float) (message : BackgroundMessage) (self : t) :
  message_type message = "notification.create" ->
  let u := payload message "user_id" VNone in
  truthy u = true -> hashable u = true -> py_eq u u = true ->
  let existing := default [] (pd_find u (_notifications self)) in
  let self' := state_of (process_message loop_time message self) in
  exists n,
    pd_find u (_notifications self') = Some (existing ++ [n])
    /\ notif_read n = false
    /\ notif_dismissed n = false
    /\ notif_id n
       = payload message "id" (VStr ("notif_" +:+ pretty (length existing)))
    /\ notif_title n = payload message "title" (VStr "Notification")
    /\ notif_message n = payload message "message" (VStr "")
    /\ notif_type n = payload message "type" (VStr "info")
    /\ notif_created_at n = payload message "created_at" (VFloat loop_time)
    /\ (forall k, py_eq k u = false ->
                  pd_find k (_notifications self')
                  = pd_find k (_notifications self))
    /\ _user_sessions self' = _user_sessions self
    /\ base self' = base self.
Proof.
  intros Hmt u Hu Hh Hrefl existing self'.
  exists (created_notification loop_time message existing).
  assert (self' = with_notifications
                    match pd_find u (_notifications self) with
                    | Some l =>
                        pd_mutate u
                          (fun l' => l' ++ [created_notification loop_time message l])
                          (_notifications self)
                    | None =>
                        pd_store u [created_notification loop_time message []]
                          (_notifications self)
                    end self) as ->.
  { unfold self'. rewrite notifier_hook_state, Hmt. simpl.
    rewrite create_notification_state. cbv zeta.
    by rewrite applies_of_user_id. }
  unfold existing. simpl.
  destruct (pd_find u (_notifications self)) as [l|] eqn:Hf; simpl.
  - rewrite pd_find_mutate_eq, Hf. simpl. repeat split; try done.
    intros k Hk. by apply pd_find_mutate_ne.
  - rewrite pd_find_store_eq by done. repeat split; try done.
    intros k Hk. by apply pd_find_store_ne.
Qed.

Lemma create_appends_one_witness :
  length <$> pd_find (VStr "user123") (_notifications two_notifications)
  = Some 2.
Proof.
  unfold two_notifications.
  destruct (create_appends_one (S754_zero false) create_seven
              (state_of (process_message (S754_zero false) create_seven
                           sample_agent)))
    as (n & Hf & _);
    [reflexivity|reflexivity|reflexivity|reflexivity|].
  cbv zeta in Hf.
  change (payload create_seven "user_id" VNone) with (VStr "user123") in Hf.
  rewrite Hf. reflexivity.
Defined.

(** *** Nothing is forgotten *)

Lemma notification_evolves_refl n : notification_evolves n n.
Proof. unfold notification_evolves. tauto. Qed.

Lemma notification_evolves_trans n1 n2 n3 :
  notification_evolves n1 n2 -> notification_evolves n2 n3 ->
  notification_evolves n1 n3.
Proof. unfold notification_evolves. intuition congruence. Qed.

Lemma list_extends_refl l : list_extends l l.
Proof. intros j n Hj. eauto using notification_evolves_refl. Qed.

Lemma list_extends_trans l1 l2 l3 :
  list_extends l1 l2 -> list_extends l2 l3 -> list_extends l1 l3.
Proof.
  intros H12 H23 j n Hj.
  destruct (H12 j n Hj) as (n2 & Hj2 & He2).
  destruct (H23 j n2 Hj2) as (n3 & Hj3 & He3).
  eauto using notification_evolves_trans.
Qed.

Lemma store_extends_refl d : store_extends d d.
Proof. intros i k l Hi. eauto using list_extends_refl. Qed.

Lemma store_extends_trans d1 d2 d3 :
  store_extends d1 d2 -> store_extends d2 d3 -> store_extends d1 d3.
Proof.
  intros H12 H23 i k l Hi.
  destruct (H12 i k l Hi) as (l2 & Hi2 & He2).
  destruct (H23 i k l2 Hi2) as (l3 & Hi3 & He3).
  eauto using list_extends_trans.
Qed.

Lemma list_extends_app l n : list_extends l (l ++ [n]).
Proof.
  intros j m Hj. exists m. split; [|apply notification_evolves_refl].
  by apply lookup_app_l_Some.
Qed.

Lemma set_dismissed_evolves n : notification_evolves n (set_dismissed n).
Proof. unfold notification_evolves. simpl. tauto. Qed.

Lemma set_read_evolves n : notification_evolves n (set_read n).
Proof. unfold notification_evolves. simpl. tauto. Qed.

Lemma list_extends_dismiss i l : list_extends l (dismiss_loop i l).1.
Proof.
  destruct (dismiss_loop_spec i l) as [[_ ->]|(j & n & Hj & _ & _ & ->)];
    [apply list_extends_refl|].
  intros j' m Hj'. destruct (decide (j = j')) as [<-|Hne].
  - rewrite list_lookup_insert_eq by (by eapply lookup_lt_Some).
    assert (m = n) as -> by congruence.
    eauto using set_dismissed_evolves.
  - rewrite list_lookup_insert_ne by done.
    eauto using notification_evolves_refl.
Qed.

Lemma list_extends_mark_read refs l : list_extends l (mark_read refs l).
Proof.
  intros j n Hj. destruct (decide (j ∈ refs)) as [Hin|Hnin].
  - rewrite mark_read_lookup_in, Hj by done.
    eauto using set_read_evolves.
  - rewrite mark_read_lookup_notin, Hj by done.
    eauto using notification_evolves_refl.
Qed.

Lemma store_extends_mutate u f d :
  (forall l, list_extends l (f l)) -> store_extends d (pd_mutate u f d).
Proof.
  intros Hf i k l Hi.
  destruct (pd_mutate_lookup u f d i k l Hi) as [H|H]; rewrite H;
    eauto using list_extends_refl.
Qed.

Lemma store_extends_fresh u v d :
  pd_find u d = None -> store_extends d (pd_store u v d).
Proof.
  intros Hf i k l Hi. rewrite pd_store_fresh by done.
  exists l. split; [by apply lookup_app_l_Some|apply list_extends_refl].
Qed.

Lemma hook_extends_store loop_time message self :
  store_extends (_notifications self)
    (_notifications (state_of (process_message loop_time message self))).
Proof.
  rewrite notifier_hook_state.
  repeat case_match; try apply store_extends_refl.
  - rewrite create_notification_state. cbv zeta.
    destruct (creation_applies message); [|apply store_extends_refl]. simpl.
    destruct (pd_find _ _) eqn:Hf.
    + apply store_extends_mutate. intros l'. apply list_extends_app.
    + by apply store_extends_fresh.
  - rewrite dismiss_notification_state. cbv zeta.
    destruct (dismissal_applies message); [|apply store_extends_refl]. simpl.
    apply store_extends_mutate. intros l'. apply list_extends_dismiss.
  - rewrite list_notifications_state. cbv zeta.
    destruct (listing_applies message); [|apply store_extends_refl]. simpl.
    apply store_extends_mutate. intros l'. apply list_extends_mark_read.
  - rewrite handle_session_start_notifications. apply store_extends_refl.
  - rewrite handle_session_end_notifications. apply store_extends_refl.
Qed.

(** X4.  No run of messages removes or reorders anything: an entry of the
    store stays at its position under its key, each of its notifications
    stays at its position in the list with its id, title, message, type
    and creation time, and a [read] or [dismissed] flag that is set is
    never cleared. *)
Theorem notifications_are_never_forgotten
    (inputs : list (spec_float * BackgroundMessage)) (self : t) :
  forall i k l,
    _notifications self !! i = Some (k, l) ->
    exists l',
      _notifications (deliver inputs self) !! i = Some (k, l')
      /\ forall j n,
           l !! j = Some n ->
           exists n',
             l' !! j = Some n'
             /\ notif_id n' = notif_id n
             /\ notif_title n' = notif_title n
             /\ notif_message n' = notif_message n
             /\ notif_type n' = notif_type n
             /\ notif_created_at n' = notif_created_at n
             /\ (notif_read n = true -> notif_read n' = true)
             /\ (notif_dismissed n = true -> notif_dismissed n' = true).
Proof.
  assert (store_extends (_notifications self)
            (_notifications (deliver inputs self))) as H.
  { unfold deliver. revert self.
    induction inputs as [|[loop_time message] inputs IH]; intros self; simpl.
    - apply store_extends_refl.
    - eapply store_extends_trans; [apply hook_extends_store|apply IH]. }
  exact H.
Qed.

Lemma notifications_are_never_forgotten_witness :
  exists l',
    _notifications (deliver dismiss_then_list two_notifications) !! 0
    = Some (VStr "user123", l').
Proof.
  destruct (notifications_are_never_forgotten dismiss_then_list
              two_notifications 0 (VStr "user123")
              (default [] (pd_find (VStr "user123")
                             (_notifications two_notifications)))
              eq_refl)
    as (l' & H & _).
  by exists l'.
Defined.

(** *** Repeated messages *)

Lemma dismiss_loop_idemp i l :
  (dismiss_loop i (dismiss_loop i l).1).1 = (dismiss_loop i l).1.
Proof.
  induction l as [|n r IH]; simpl; [reflexivity|].
  destruct (py_eq (notif_id n) i) eqn:E; simpl.
  - by rewrite E.
  - destruct (dismiss_loop i r) as [r' found] eqn:Er. simpl in *.
    rewrite E. destruct (dismiss_loop i r') as [r'' found'] eqn:Er'.
    simpl in *. by rewrite IH.
Qed.

Lemma mark_read_selected_fmap inc l :
  mark_read (selected inc l) l = mark_listed inc <$> l.
Proof.
  apply list_eq. intros j. rewrite list_lookup_fmap.
  destruct (l !! j) as [n|] eqn:Hj; simpl.
  - unfold selected. by rewrite (mark_read_selected inc l j n Hj).
  - apply lookup_ge_None. rewrite length_mark_read. by apply lookup_ge_None.
Qed.

Lemma mark_listed_idemp inc n :
  mark_listed inc (mark_listed inc n) = mark_listed inc n.
Proof.
  unfold mark_listed, listed.
  destruct (truthy inc), (notif_dismissed n) eqn:Hd; simpl; rewrite ?Hd;
    reflexivity.
Qed.

Lemma with_notifications_twice d1 d2 self :
  with_notifications d2 (with_notifications d1 self)
  = with_notifications d2 self.
Proof. reflexivity. Qed.

(** X5.  Handling the same dismissal or the same listing a second time
    changes nothing more: the agent after the second delivery is the agent
    after the first, whatever the payload. *)
Theorem dismiss_and_list_are_idempotent
    (loop_time loop_time' : spec_float) (message : BackgroundMessage)
    (self : t) :
  message_type message = "notification.dismiss"
  \/ message_type message = "notification.list" ->
  state_of (process_message loop_time' message
              (state_of (process_message loop_time message self)))
  = state_of (process_message loop_time message self).
Proof.
  intros [Hmt|Hmt]; rewrite !notifier_hook_state, Hmt; simpl.
  - rewrite !dismiss_notification_state. cbv zeta.
    destruct (dismissal_applies message); [|reflexivity].
    simpl. rewrite with_notifications_twice, pd_mutate_mutate.
    f_equal. apply pd_mutate_ext. intros l _. apply dismiss_loop_idemp.
  - rewrite !list_notifications_state. cbv zeta.
    destruct (listing_applies message); [|reflexivity].
    simpl. rewrite with_notifications_twice, pd_mutate_mutate.
    f_equal. apply pd_mutate_ext. intros l _.
    rewrite !mark_read_selected_fmap, <- list_fmap_compose.
    apply list_fmap_ext. intros j n _. apply mark_listed_idemp.
Qed.

Lemma dismiss_and_list_are_idempotent_witness :
  state_of (process_message (S754_zero false) dismiss_seven one_dismissed)
  = one_dismissed.
Proof.
  unfold one_dismissed.
  apply (dismiss_and_list_are_idempotent (S754_zero false) (S754_zero false)
           dismiss_seven two_notifications).
  left. reflexivity.
Defined.

(** *** The states the agent goes through *)

Lemma length_dismiss_loop i l : length (dismiss_loop i l).1 = length l.
Proof.
  induction l as [|n r IH]; simpl; [reflexivity|].
  destruct (py_eq (notif_id n) i); simpl; [reflexivity|].
  destruct (dismiss_loop i r) as [r' found]. simpl in *. by rewrite IH.
Qed.

Lemma pd_mutate_values_Forall {V} (P : V -> Prop) u (f : V -> V) (d : pydict V) :
  (forall v, P v -> P (f v)) -> Forall P d.*2 -> Forall P (pd_mutate u f d).*2.
Proof.
  intros Hf. induction d as [|[k' v'] r IH]; simpl; intros Hd; [done|].
  apply Forall_cons in Hd as [Hv Hr].
  destruct (py_eq k' u); simpl; constructor; auto.
Qed.

Lemma pd_store_values_Forall {V} (P : V -> Prop) u v (d : pydict V) :
  P v -> Forall P d.*2 -> Forall P (pd_store u v d).*2.
Proof.
  intros Hv. induction d as [|[k' v'] r IH]; simpl; intros Hd.
  - by constructor.
  - apply Forall_cons in Hd as [Hv' Hr].
    destruct (py_eq k' u); simpl; constructor; auto.
Qed.

Lemma usable_of_applies message :
  creation_applies message = true ->
  usable_key (payload message "user_id" VNone).
Proof.
  unfold creation_applies. intros H.
  apply andb_prop in H as [H Hh]. apply andb_prop in H as [_ Ht]. by split.
Qed.

Lemma notifier_hook_base loop_time message self :
  base (state_of (process_message loop_time message self)) = base self.
Proof.
  rewrite notifier_hook_state.
  repeat case_match; try reflexivity.
  - rewrite create_notification_state. cbv zeta. by case_match.
  - rewrite dismiss_notification_state. cbv zeta. by case_match.
  - rewrite list_notifications_state. cbv zeta. by case_match.
  - rewrite handle_session_start_state. by case_match.
  - rewrite handle_session_end_state. by case_match.
Qed.

Lemma hook_keeps_well_formed loop_time message self :
  well_formed self ->
  well_formed (state_of (process_message loop_time message self)).
Proof.
  intros (Hn & Hs & He & Hb). unfold well_formed.
  rewrite notifier_hook_base.
  cut (Forall usable_key
         (_notifications (state_of (process_message loop_time message self))).*1
       /\ Forall usable_key
            (_user_sessions (state_of (process_message loop_time message self))).*1
       /\ Forall (fun l => l <> [])
            (_notifications (state_of (process_message loop_time message self))).*2);
    [tauto|].
  rewrite notifier_hook_state.
  repeat case_match; try done.
  - rewrite create_notification_state. cbv zeta.
    destruct (creation_applies message) eqn:Ha; [|done].
    pose proof (usable_of_applies message Ha) as Hu.
    simpl. split; [|split; [done|]].
    + destruct (pd_find _ _); [by rewrite pd_mutate_keys|].
      by apply pd_store_keys_Forall.
    + destruct (pd_find _ _).
      * apply pd_mutate_values_Forall; [|done]. intros l0 _.
        by destruct l0.
      * by apply pd_store_values_Forall.
  - rewrite dismiss_notification_state. cbv zeta.
    destruct (dismissal_applies message); [|done].
    simpl. rewrite pd_mutate_keys.
    split; [done|]. split; [done|].
    apply pd_mutate_values_Forall; [|done]. intros l0 Hl Hnil.
    apply Hl. apply length_zero_iff_nil.
    by rewrite <- (length_dismiss_loop (payload message "notification_id" VNone)),
      Hnil.
  - rewrite list_notifications_state. cbv zeta.
    destruct (listing_applies message); [|done].
    simpl. rewrite pd_mutate_keys.
    split; [done|]. split; [done|].
    apply pd_mutate_values_Forall; [|done]. intros l0 Hl Hnil.
    apply Hl. apply length_zero_iff_nil.
    by rewrite <- (length_mark_read
                     (selected (payload message "include_dismissed" (VBool false)) l0)),
      Hnil.
  - rewrite handle_session_start_state.
    destruct (creation_applies message) eqn:Ha; [|done].
    pose proof (usable_of_applies message Ha) as Hu.
    simpl. split; [done|]. split; [|done].
    by apply pd_store_keys_Forall.
  - rewrite handle_session_end_state.
    destruct (creation_applies message) eqn:Ha; [|done].
    pose proof (usable_of_applies message Ha) as Hu.
    simpl. split; [done|]. split; [|done].
    by apply pd_store_keys_Forall.
Qed.

(** X6.  Whatever messages a notification agent has received since its
    construction: every key of its store and of its session table is a
    truthy value that can be hashed, no user of the store has an empty
    list of notifications, and its base agent is the one [__init__] built
    (type, no interval, the four subscriptions). *)
Theorem reachable_agents_are_well_formed (self : t) :
  reachable self ->
  Forall (fun k => truthy k = true /\ hashable k = true)
    (_notifications self).*1
  /\ Forall (fun k => truthy k = true /\ hashable k = true)
       (_user_sessions self).*1
  /\ Forall (fun l => l <> []) (_notifications self).*2
  /\ exists session_id,
       base self
       = subscribe_all ["notification.create"; "notification.dismiss";
                        "notification.list"; "user.session.*"]
           (BackgroundAgent_init session_id "notification_manager" None).
Proof.
  induction 1 as [sid|self _ IH|lt message self _ IH].
  - split; [constructor|]. split; [constructor|]. split; [constructor|].
    by exists sid.
  - exact IH.
  - by apply (hook_keeps_well_formed lt message self).
Qed.

Lemma reachable_agents_are_well_formed_witness :
  Forall (fun l : list notification => l <> [])
    (_notifications one_dismissed).*2.
Proof.
  apply (reachable_agents_are_well_formed one_dismissed).
  apply reachable_message, reachable_two_notifications.
Defined.

(** *** What the hook logs *)




(** X8.  A message whose type is none of the five the hook tests, such
    as another type under the ["user.session.*"] subscription, is only
    logged: the hook returns, the agent is as it was, and the one record
    is the hook's first. *)
Theorem other_session_events_are_ignored
    (loop_time : spec_float) (message : BackgroundMessage) (self : t) :
  message_type message <> "notification.create" ->
  message_type message <> "notification.dismiss" ->
  message_type message <> "notification.list" ->
  message_type message <> "user.session.start" ->
  message_type message <> "user.session.end" ->
  process_message loop_time message self
  = (Returned tt, self, [processing_record message]).
Proof.
  intros H1 H2 H3 H4 H5. unfold process_message, try_except.
  rewrite bind_logger.
  apply String.eqb_neq in H1, H2, H3, H4, H5.
  rewrite H1, H2, H3, H4, H5. reflexivity.
Qed.

Lemma other_session_events_are_ignored_witness :
  process_message (S754_zero false) session_pause_user123 two_notifications
  = (Returned tt, two_notifications,
     [processing_record session_pause_user123]).
Proof.
  apply other_session_events_are_ignored; discriminate.
Defined.

(** *** When the hook logs an error *)












(** *** Pending notifications at a session start *)







End NotificationMoreFacts.

(** ** More on the system monitor *)

Lemma after_user_action_frame message self :
  SystemMonitorAgent.base (after_user_action message self)
  = SystemMonitorAgent.base self
  /\ SystemMonitorAgent._last_check_time (after_user_action message self)
     = SystemMonitorAgent._last_check_time self
  /\ SystemMonitorAgent.cpu_usage
       (SystemMonitorAgent._system_stats (after_user_action message self))
     = SystemMonitorAgent.cpu_usage (SystemMonitorAgent._system_stats self)
  /\ SystemMonitorAgent.memory_usage
       (SystemMonitorAgent._system_stats (after_user_action message self))
     = SystemMonitorAgent.memory_usage (SystemMonitorAgent._system_stats self)
  /\ SystemMonitorAgent.uptime
       (SystemMonitorAgent._system_stats (after_user_action message self))
     = SystemMonitorAgent.uptime (SystemMonitorAgent._system_stats self).
Proof.
  unfold after_user_action, SystemMonitorAgent._handle_user_action.
  cbv zeta. rewrite bind_logger, bind_get_self.
  destruct (String.eqb _ "login"); [done|].
  destruct (String.eqb _ "logout"); done.
Qed.

Lemma monitor_hook_state message self :
  state_of (SystemMonitorAgent.process_message message self)
  = if startswith (message_type message) "user.action."
    then after_user_action message self
    else self.
Proof.
  destruct (startswith (message_type message) "user.action.") eqn:Hp.
  - by rewrite (monitor_hook_user_action message self Hp).
  - by destruct (monitor_hook_other message self Hp) as [-> _].
Qed.

(** X12.  The monitor's message hook changes nothing but the count of
    active users: the base agent, the time of the last check and the
    three other statistics are as before, and a message outside
    ["user.action.*"] leaves the whole agent as it was.  A login adds one
    to the count, and a logout right after it gives back the count from
    before the login, or zero where that count was negative. *)
Theorem monitor_hook_only_counts_users
    (message : BackgroundMessage) (self : SystemMonitorAgent.t) :
  let self' := state_of (SystemMonitorAgent.process_message message self) in
  SystemMonitorAgent.base self' = SystemMonitorAgent.base self
  /\ SystemMonitorAgent._last_check_time self'
     = SystemMonitorAgent._last_check_time self
  /\ SystemMonitorAgent.cpu_usage (SystemMonitorAgent._system_stats self')
     = SystemMonitorAgent.cpu_usage (SystemMonitorAgent._system_stats self)
  /\ SystemMonitorAgent.memory_usage (SystemMonitorAgent._system_stats self')
     = SystemMonitorAgent.memory_usage (SystemMonitorAgent._system_stats self)
  /\ SystemMonitorAgent.uptime (SystemMonitorAgent._system_stats self')
     = SystemMonitorAgent.uptime (SystemMonitorAgent._system_stats self)
  /\ (startswith (message_type message) "user.action." = false -> self' = self)
  /\ (message_type message = "user.action.login" ->
      active_users_of self' = (active_users_of self + 1)%Z)
  /\ (message_type message = "user.action.login" ->
      forall logout,
        message_type logout = "user.action.logout" ->
        active_users_of
          (state_of (SystemMonitorAgent.process_message logout self'))
        = Z.max 0 (active_users_of self)).
Proof.
  intros self'. unfold self'. rewrite monitor_hook_state.
  destruct (startswith (message_type message) "user.action.") eqn:Hp.
  - destruct (after_user_action_frame message self) as (? & ? & ? & ? & ?).
    repeat split; try done.
    + intros Hmt. rewrite after_user_action_active_users, Hmt. reflexivity.
    + intros Hmt logout Hlo.
      rewrite monitor_hook_state, Hlo. simpl.
      rewrite !after_user_action_active_users, Hmt, Hlo. simpl. f_equal. lia.
  - repeat split; try done.
    + intros Hmt. rewrite Hmt in Hp. discriminate Hp.
    + intros Hmt. rewrite Hmt in Hp. discriminate Hp.
Qed.

(** *** The periodic hook *)

Lemma add_float_catchable u elapsed e :
  SystemMonitorAgent.add_float u elapsed = inl e -> is_Exception e = true.
Proof.
  unfold SystemMonitorAgent.add_float, SystemMonitorAgent.float_of_int.
  repeat case_match; intros [= <-]; simplify_eq; reflexivity.
Qed.

Lemma monitor_process_run time_time cpu mem self :
  SystemMonitorAgent.process time_time cpu mem self
  = match SystemMonitorAgent.add_float
            (SystemMonitorAgent.uptime (SystemMonitorAgent._system_stats self))
            (SFsub prec emax time_time
               (SystemMonitorAgent._last_check_time self)) with
    | inr up =>
        let st :=
          {| SystemMonitorAgent.cpu_usage := cpu;
             SystemMonitorAgent.memory_usage := mem;
             SystemMonitorAgent.uptime := up;
             SystemMonitorAgent.active_users := active_users_of self |} in
        (Returned tt,
         {| SystemMonitorAgent.base := SystemMonitorAgent.base self;
            SystemMonitorAgent._last_check_time := time_time;
            SystemMonitorAgent._system_stats := st |},
         [LogRecord INFO [Lit "SystemMonitorAgent processed: ";
                          Fmt (SystemMonitorAgent.stats_value st)]])
    | inl e =>
        (Returned tt,
         {| SystemMonitorAgent.base := SystemMonitorAgent.base self;
            SystemMonitorAgent._last_check_time := time_time;
            SystemMonitorAgent._system_stats :=
              SystemMonitorAgent._system_stats self |},
         [LogRecord ERROR [Lit "Error in SystemMonitorAgent.process: ";
                           FmtExn e]])
    end.
Proof.
  unfold SystemMonitorAgent.process.
  unfold try_except, bind, get_self, SystemMonitorAgent.set_last_check_time,
    SystemMonitorAgent.set_stats, logger, ret. simpl.
  destruct (SystemMonitorAgent.add_float _ _) as [e|up] eqn:Ha; simpl.
  - by rewrite (add_float_catchable _ _ _ Ha).
  - reflexivity.
Qed.

(** X13.  One run of the monitor's periodic hook.  It returns normally,
    keeps the base agent and the count of active users, and sets the time
    of the last check to the clock reading, also when the update of the
    uptime fails.  Where the uptime can take the elapsed time, the two
    usages become the two random draws and the uptime is the old one plus
    the elapsed time, as a float; where it cannot, the statistics stay as
    they were.  The uptime [0] of a new agent and every float uptime can
    take it. *)
Theorem monitor_tick
    (time_time cpu mem : spec_float) (self : SystemMonitorAgent.t) :
  let elapsed :=
    SFsub prec emax time_time (SystemMonitorAgent._last_check_time self) in
  let out := SystemMonitorAgent.process time_time cpu mem self in
  let self' := state_of out in
  result_of out = Returned tt
  /\ SystemMonitorAgent.base self' = SystemMonitorAgent.base self
  /\ active_users_of self' = active_users_of self
  /\ SystemMonitorAgent._last_check_time self' = time_time
  /\ (forall up,
        SystemMonitorAgent.add_float
          (SystemMonitorAgent.uptime (SystemMonitorAgent._system_stats self))
          elapsed = inr up ->
        SystemMonitorAgent._system_stats self'
        = {| SystemMonitorAgent.cpu_usage := cpu;
             SystemMonitorAgent.memory_usage := mem;
             SystemMonitorAgent.uptime := up;
             SystemMonitorAgent.active_users := active_users_of self |})
  /\ (forall e,
        SystemMonitorAgent.add_float
          (SystemMonitorAgent.uptime (SystemMonitorAgent._system_stats self))
          elapsed = inl e ->
        SystemMonitorAgent._system_stats self'
        = SystemMonitorAgent._system_stats self)
  /\ (forall f,
        SystemMonitorAgent.uptime (SystemMonitorAgent._system_stats self)
        = VFloat f ->
        SystemMonitorAgent.uptime (SystemMonitorAgent._system_stats self')
        = VFloat (SFadd prec emax f elapsed))
  /\ (SystemMonitorAgent.uptime (SystemMonitorAgent._system_stats self)
      = VInt 0 ->
      SystemMonitorAgent.uptime (SystemMonitorAgent._system_stats self')
      = VFloat (SFadd prec emax (S754_zero false) elapsed)).
Proof.
  intros elapsed out self'. unfold self', out.
  rewrite monitor_process_run. fold elapsed.
  destruct (SystemMonitorAgent.add_float
              (SystemMonitorAgent.uptime (SystemMonitorAgent._system_stats self))
              elapsed) as [e|up] eqn:Ha; simpl.
  - repeat split; try done.
    + intros f Hf. rewrite Hf in Ha. discriminate Ha.
    + intros Hz. rewrite Hz in Ha. discriminate Ha.
  - repeat split; try done.
    + by intros ? [= <-].
    + intros f Hf. rewrite Hf in Ha. by injection Ha as <-.
    + intros Hz. rewrite Hz in Ha. by injection Ha as <-.
Qed.

(** *** The states a monitor goes through *)

Lemma uptime_shape_adds st elapsed :
  uptime_shape st ->
  exists f, SystemMonitorAgent.add_float (SystemMonitorAgent.uptime st) elapsed
            = inr (VFloat f).
Proof. intros [->|[f ->]]; eexists; reflexivity. Qed.

Lemma monitor_sound_init session_id time_time :
  monitor_sound (SystemMonitorAgent.init session_id time_time).1.
Proof.
  split; [done|]. split; [by left|]. by exists session_id.
Qed.

Lemma monitor_sound_tick time_time cpu mem self :
  monitor_sound self ->
  monitor_sound (state_of (SystemMonitorAgent.process time_time cpu mem self)).
Proof.
  intros (Hge & Hup & Hb). rewrite monitor_process_run.
  destruct (uptime_shape_adds _
              (SFsub prec emax time_time
                 (SystemMonitorAgent._last_check_time self)) Hup) as [f ->].
  split; [exact Hge|]. split; [right; by exists f|exact Hb].
Qed.

Lemma monitor_sound_message message self :
  monitor_sound self ->
  monitor_sound (state_of (SystemMonitorAgent.process_message message self)).
Proof.
  intros (Hge & Hup & Hb). rewrite monitor_hook_state.
  destruct (startswith (message_type message) "user.action."); [|done].
  destruct (after_user_action_frame message self) as (Eb & _ & _ & _ & Eu).
  split; [|split].
  - rewrite after_user_action_active_users. cbv zeta.
    unfold active_users_of in *. repeat case_match; lia.
  - unfold uptime_shape. by rewrite Eu.
  - by rewrite Eb.
Qed.

(** X14.  Whatever clock readings, random draws and messages a monitor has
    seen since its construction: its count of active users is not
    negative, its uptime is the [0] it started with or a float, its base
    agent is the one [__init__] built (type, interval and the three
    subscriptions), and the next run of the periodic hook cannot fail: it
    logs its one [INFO] record and never the error of its [except]. *)
Theorem reachable_monitor_is_sound (self : SystemMonitorAgent.t) :
  monitor_reachable self ->
  (0 <= active_users_of self)%Z
  /\ (SystemMonitorAgent.uptime (SystemMonitorAgent._system_stats self) = VInt 0
      \/ exists f,
           SystemMonitorAgent.uptime (SystemMonitorAgent._system_stats self)
           = VFloat f)
  /\ (exists session_id,
        SystemMonitorAgent.base self
        = subscribe_all ["system.status.request"; "system.resource.request";
                         "user.action.*"]
            (BackgroundAgent_init session_id "system_monitor"
               (Some SystemMonitorAgent.sixty)))
  /\ forall time_time cpu mem,
       levelname
       <$> log_of (SystemMonitorAgent.process time_time cpu mem self)
       = [INFO].
Proof.
  intros Hr.
  assert (monitor_sound self) as (Hge & Hup & Hb).
  { induction Hr as [sid t0|t1 cpu mem self _ IH|message self _ IH].
    - apply monitor_sound_init.
    - by apply monitor_sound_tick.
    - by apply monitor_sound_message. }
  split; [exact Hge|]. split; [exact Hup|]. split; [exact Hb|].
  intros time_time cpu mem. rewrite monitor_process_run.
  by destruct (uptime_shape_adds _
                 (SFsub prec emax time_time
                    (SystemMonitorAgent._last_check_time self)) Hup) as [f ->].
Qed.

Lemma reachable_monitor_is_sound_witness :
  levelname
  <$> log_of (SystemMonitorAgent.process (S754_zero false) (S754_zero false)
                (S754_zero false) monitor_after_a_login)
  = [INFO].
Proof.
  apply (reachable_monitor_is_sound monitor_after_a_login).
  apply monitor_reachable_message, monitor_reachable_tick,
    monitor_reachable_init.
Defined.
